(** * pyTigerGraph GDS featurizer: algorithm catalog, installer, parameter
      inference, schema mutation and runner

    A shallow embedding of [pyTigerGraph/gds/featurizer.py] (class
    [Featurizer]) together with the two schema accessors of
    [pyTigerGraph/pyTigerGraphEdge.py] it calls.  Python strings are
    [string]s of bytes, dictionaries used as maps are [gmap]s, dictionaries
    whose iteration order matters are association lists, and the methods of
    the class are computations in a state-and-exception monad over the
    [Featurizer] object and the remote server. *)

From Stdlib Require Import ZArith Ascii String List Bool Lia.
From stdpp Require Import gmap strings list fin_maps pretty.

Local Open Scope string_scope.
Local Open Scope Z_scope.
Local Open Scope list_scope.

#[local] Set Warnings "-register-all".

(** ** Python built-ins on [str] *)

Module Py.

(** [str.isspace] on the ASCII range: TAB..CR, FS..US and the blank. *)
Definition is_space (c : ascii) : bool :=
  let n := nat_of_ascii c in
  (((9 <=? n) && (n <=? 13)) || ((28 <=? n) && (n <=? 31)) || (n =? 32))%nat.

Definition lower_char (c : ascii) : ascii :=
  let n := nat_of_ascii c in
  if ((65 <=? n) && (n <=? 90))%nat then ascii_of_nat (n + 32) else c.

Definition upper_char (c : ascii) : ascii :=
  let n := nat_of_ascii c in
  if ((97 <=? n) && (n <=? 122))%nat then ascii_of_nat (n - 32) else c.

Fixpoint map_str (f : ascii -> ascii) (s : string) : string :=
  match s with
  | EmptyString => EmptyString
  | String c r => String (f c) (map_str f r)
  end.

(** [s.lower()] and [s.upper()] *)
Definition lower (s : string) : string := map_str lower_char s.
Definition upper (s : string) : string := map_str upper_char s.

Definition len (s : string) : Z := Z.of_nat (String.length s).

(** [s.find(sub)]: the index of the first occurrence, [-1] when there is
    none. *)
Fixpoint find_from (sub s : string) (i : Z) : Z :=
  if String.prefix sub s then i
  else match s with
       | EmptyString => -1
       | String _ r => find_from sub r (i + 1)
       end.

Definition find (s sub : string) : Z := find_from sub s 0.

(** [sub in s] *)
Definition contains (sub s : string) : bool := 0 <=? find s sub.

(** Slice bounds as Python normalises them: a negative index counts from
    the end, and the result is clamped to [0, len]. *)
Definition clamp (n i : Z) : Z :=
  let j := if i <? 0 then i + n else i in
  if j <? 0 then 0 else if n <? j then n else j.

(** [s[a:b]] *)
Definition slice (s : string) (a b : Z) : string :=
  let n := len s in
  let a' := clamp n a in
  let b' := clamp n b in
  String.substring (Z.to_nat a') (Z.to_nat (b' - a')) s.

(** [s[a:]] and [s[:b]] *)
Definition slice_from (s : string) (a : Z) : string := slice s a (len s).
Definition slice_to (s : string) (b : Z) : string := slice s 0 b.

Fixpoint rev_str (acc s : string) : string :=
  match s with
  | EmptyString => acc
  | String c r => rev_str (String c acc) r
  end.

(** [s.split(sep)] for a non-empty separator: every piece is kept, also the
    empty ones.  [skip] counts the characters of a separator still to be
    dropped, [cur] is the piece being read, reversed. *)
Fixpoint split_go (sep : string) (skip : nat) (cur s : string) : list string :=
  match s with
  | EmptyString => [rev_str EmptyString cur]
  | String c r =>
      match skip with
      | S k => split_go sep k cur r
      | O =>
          if String.prefix sep s
          then rev_str EmptyString cur
               :: split_go sep (String.length sep - 1) EmptyString r
          else split_go sep O (String c cur) r
      end
  end.

Definition split (s sep : string) : list string := split_go sep O EmptyString s.

(** [s.split()]: pieces between runs of white space, none of them empty. *)
Fixpoint split_ws_go (cur s : string) : list string :=
  match s with
  | EmptyString =>
      match cur with
      | EmptyString => []
      | _ => [rev_str EmptyString cur]
      end
  | String c r =>
      if is_space c
      then match cur with
           | EmptyString => split_ws_go EmptyString r
           | _ => rev_str EmptyString cur :: split_ws_go EmptyString r
           end
      else split_ws_go (String c cur) r
  end.

Definition split_ws (s : string) : list string := split_ws_go EmptyString s.

Fixpoint lstrip (s : string) : string :=
  match s with
  | EmptyString => EmptyString
  | String c r => if is_space c then lstrip r else s
  end.

(** [s.strip()] *)
Definition strip (s : string) : string :=
  rev_str EmptyString (lstrip (rev_str EmptyString (lstrip s))).

(** [s.replace(old, new)]: occurrences are replaced from the left and do not
    overlap; an empty [old] matches before every character and at the
    end. *)
Fixpoint replace_go (old new : string) (skip : nat) (s : string) : string :=
  match s with
  | EmptyString => EmptyString
  | String c r =>
      match skip with
      | S k => replace_go old new k r
      | O =>
          if String.prefix old s
          then new +:+ replace_go old new (String.length old - 1) r
          else String c (replace_go old new O r)
      end
  end.

Fixpoint intersperse (new s : string) : string :=
  match s with
  | EmptyString => new
  | String c r => new +:+ String c (intersperse new r)
  end.

Definition replace (s old new : string) : string :=
  match old with
  | EmptyString => intersperse new s
  | _ => replace_go old new O s
  end.

(** [s.splitlines()]: lines end at LF, CR, CR LF, VT, FF, FS, GS or RS; the
    terminators are dropped and a final terminator opens no further line. *)
Definition is_linebreak (c : ascii) : bool :=
  let n := nat_of_ascii c in
  (((10 <=? n) && (n <=? 13)) || ((28 <=? n) && (n <=? 30)))%nat.

Fixpoint splitlines_go (skip_lf : bool) (started : bool) (cur s : string)
  : list string :=
  match s with
  | EmptyString => if started then [rev_str EmptyString cur] else []
  | String c r =>
      if skip_lf && Ascii.eqb c "010"%char
      then splitlines_go false false EmptyString r
      else if is_linebreak c
      then rev_str EmptyString cur
           :: splitlines_go (Ascii.eqb c "013"%char) false EmptyString r
      else splitlines_go false true (String c cur) r
  end.

Definition splitlines (s : string) : list string :=
  splitlines_go false false EmptyString s.

(** [l[-1]] *)
Definition last_item {A} (l : list A) : option A := List.last (map Some l) None.

(** [l[i]] for a non-negative literal index *)
Definition item {A} (l : list A) (i : nat) : option A := nth_error l i.

Definition digit_val (c : ascii) : option Z :=
  let n := nat_of_ascii c in
  if ((48 <=? n) && (n <=? 57))%nat then Some (Z.of_nat (n - 48)) else None.

(** The digits of an integer literal: one underscore may stand between two
    digits. *)
Fixpoint parse_digits (s : string) (acc : Z) (after_digit : bool) : option Z :=
  match s with
  | EmptyString => if after_digit then Some acc else None
  | String c r =>
      match digit_val c with
      | Some d => parse_digits r (10 * acc + d) true
      | None =>
          if Ascii.eqb c "_"%char && after_digit
          then parse_digits r acc false
          else None
      end
  end.

(** [int(s)] in base ten: white space around the literal is ignored, a sign
    may lead; [None] stands for the [ValueError]. *)
Definition int (s : string) : option Z :=
  match strip s with
  | String "+" r => parse_digits r 0 false
  | String "-" r => option_map Z.opp (parse_digits r 0 false)
  | t => parse_digits t 0 false
  end.

(** [' ' * n] *)
Fixpoint spaces (n : nat) : string :=
  match n with
  | O => EmptyString
  | S k => String " " (spaces k)
  end.

(** [''.join(l)] *)
Definition join (l : list string) : string := fold_right String.append EmptyString l.

End Py.

Definition dq : string := String "034"%char EmptyString.
Definition nl : string := String "010"%char EmptyString.

(** ** Exceptions and results *)

Inductive pyexn : Type :=
  | ValueError (msg : string)
  | ConnectionError (msg : string)
  | Exception (msg : string)
  | IndexError
  | KeyError (key : string)
  | TypeError
  | AttributeError.

Inductive res (A : Type) : Type :=
  | Ok (a : A)
  | Raise (e : pyexn).
Arguments Ok {A} a.
Arguments Raise {A} e.

(** ** The catalog: a nested dictionary whose leaves are source locations *)

Inductive node : Type :=
  | Leaf (url : string)
  | Dict (items : list (string * node)).

(** A dictionary in the order its items were written. *)
Definition dict : Type := list (string * node).

(** [d[key]] and [key in d.keys()] *)
Fixpoint dict_get {A} (d : list (string * A)) (key : string) : option A :=
  match d with
  | [] => None
  | (k, v) :: r => if String.eqb k key then Some v else dict_get r key
  end.

(** [_get_values]: the leaves of the nested dictionary, depth first, in the
    order of the items. *)
Fixpoint _get_values_node (v : node) : list string :=
  match v with
  | Leaf u => [u]
  | Dict d =>
      (fix values (items : list (string * node)) : list string :=
         match items with
         | [] => []
         | (_, v') :: r => _get_values_node v' ++ values r
         end) d
  end.

Definition _get_values (d : dict) : list string := _get_values_node (Dict d).

(** [query_url.split('/')[-1][:-5]]: the file name of a location without its
    five-character extension. *)
Definition leaf_name (query_url : string) : string :=
  match Py.last_item (Py.split query_url "/") with
  | Some f => Py.slice_to f (-5)
  | None => EmptyString
  end.

Definition blob_root : string :=
  "https://github.com/tigergraph/gsql-graph-algorithms/blob/master".

(** ["https://github.com/.../blob/master" + url.split('master')[1]] *)
Definition blob_url (query_url : string) : res string :=
  match Py.item (Py.split query_url "master") 1 with
  | Some t => Ok (blob_root +:+ t)
  | None => Raise IndexError
  end.

(** Printing: the lines written so far and how the call ended. *)
Definition printer : Type := list string * res unit.

Definition then_print (a b : printer) : printer :=
  match a with
  | (o1, Ok _) => let '(o2, r) := b in (o1 ++ o2, r)
  | (o1, Raise e) => (o1, Raise e)
  end.

Definition print_line (s : string) : printer := ([s], Ok tt).

(** The body of the loop of [_print_dict] for one item, and the loop. *)
Fixpoint _print_item (key : string) (value : node) (indent : nat) : printer :=
  then_print (print_line (Py.spaces indent +:+ key +:+ ": "))
    match value with
    | Dict d =>
        (fix items (l : list (string * node)) : printer :=
           match l with
           | [] => ([], Ok tt)
           | (k, v) :: r => then_print (_print_item k v (S indent)) (items r)
           end) d
    | Leaf value =>
        match
          (if negb (String.eqb value "")
           then blob_url value
           else Ok value)
        with
        | Ok value' => print_line (Py.spaces (S indent) +:+ value' +:+ ". ")
        | Raise e => ([], Raise e)
        end
    end.

Fixpoint _print_items (d : dict) (indent : nat) : printer :=
  match d with
  | [] => ([], Ok tt)
  | (k, v) :: r => then_print (_print_item k v indent) (_print_items r indent)
  end.

(** [_print_dict(d, category, indent)] *)
Definition _print_dict (d : dict) (category : option string) (indent : nat)
  : printer :=
  match category with
  | Some c =>
      match dict_get d c with
      | Some (Dict d') => _print_items d' indent
      | Some (Leaf _) => ([], Raise AttributeError)
      | None =>
          ([], Raise (ValueError "There is no such category within the algorithms."))
      end
  | None => _print_items d indent
  end.

(** The first line [listAlgorithms] prints. *)
Definition listing_header (category : option string) : string :=
  match category with
  | Some c =>
      "Available algorithms for category " +:+ c +:+
      " in the GDS (https://github.com/tigergraph/gsql-graph-algorithms):"
  | None =>
      "The list of the categories for available algorithms in the GDS (https://github.com/tigergraph/gsql-graph-algorithms):"
  end.

Definition listing (d : dict) (category : option string) : printer :=
  then_print (print_line (listing_header category)) (_print_dict d category 0).

(** ** Schema metadata, as [getSchema] returns it *)

Record attribute : Type := { AttributeName : string }.

Record type_meta : Type := { Name : string; Attributes : list attribute }.

(** What [_add_attribute] iterates over: a type name, or a whole list of
    names. *)
Inductive pyarg : Type :=
  | AStr (s : string)
  | AList (l : list string).

(** [et["Name"] == edgeType]: a string never equals a list. *)
Definition name_is (edgeType : pyarg) (et : type_meta) : bool :=
  match edgeType with
  | AStr s => String.eqb (Name et) s
  | AList _ => false
  end.

(** ** The tables of [__init__] *)

(** [self.algo_dict], the catalog [__init__] builds. *)
Definition algo_dict0 : dict :=
  [
    ("Centrality",
      Dict [
        ("pagerank",
          Dict [
            ("global",
              Dict [
                ("weigthed",
                  Leaf "https://raw.githubusercontent.com/tigergraph/gsql-graph-algorithms/master/algorithms/Centrality/pagerank/global/weighted/tg_pagerank_wt.gsql");
                ("unweighted",
                  Leaf "https://raw.githubusercontent.com/tigergraph/gsql-graph-algorithms/master/algorithms/Centrality/pagerank/global/unweighted/tg_pagerank.gsql")])]);
        ("article_rank",
          Leaf "https://raw.githubusercontent.com/tigergraph/gsql-graph-algorithms/master/algorithms/Centrality/article_rank/tg_article_rank.gsql");
        ("Betweenness",
          Leaf "https://raw.githubusercontent.com/tigergraph/gsql-graph-algorithms/master/algorithms/Centrality/betweenness/tg_betweenness_cent.gsql");
        ("closeness",
          Dict [
            ("approximate",
              Leaf "https://raw.githubusercontent.com/tigergraph/gsql-graph-algorithms/master/algorithms/Centrality/closeness/approximate/tg_closeness_cent_approx.gsql");
            ("exact",
              Leaf "https://raw.githubusercontent.com/tigergraph/gsql-graph-algorithms/master/algorithms/Centrality/closeness/exact/tg_closeness_cent.gsql")]);
        ("degree",
          Leaf "https://raw.githubusercontent.com/tigergraph/gsql-graph-algorithms/master/algorithms/Centrality/degree/tg_degree_cent.gsql");
        ("eigenvector",
          Leaf "https://raw.githubusercontent.com/tigergraph/gsql-graph-algorithms/master/algorithms/Centrality/eigenvector/tg_eigenvector_cent.gsql");
        ("harmonic",
          Leaf "https://raw.githubusercontent.com/tigergraph/gsql-graph-algorithms/master/algorithms/Centrality/harmonic/tg_harmonic_cent.gsql")]);
    ("Classification",
      Dict [
        ("maximal_independent_set",
          Dict [
            ("deterministic",
              Leaf "https://raw.githubusercontent.com/tigergraph/gsql-graph-algorithms/master/algorithms/Classification/maximal_independent_set/deterministic/tg_maximal_indep_set.gsql")])]);
    ("Community",
      Dict [
        ("connected_components",
          Dict [
            ("strongly_connected_components",
              Dict [
                ("standard",
                  Leaf "https://raw.githubusercontent.com/tigergraph/gsql-graph-algorithms/master/algorithms/Community/connected_components/strongly_connected_components/standard/tg_scc.gsql")])]);
        ("k_core",
          Leaf "https://raw.githubusercontent.com/tigergraph/gsql-graph-algorithms/master/algorithms/Community/k_core/tg_kcore.gsql");
        ("label_propagation",
          Leaf "https://raw.githubusercontent.com/tigergraph/gsql-graph-algorithms/master/algorithms/Community/label_propagation/tg_label_prop.gsql");
        ("local_clustering_coefficient",
          Leaf "https://raw.githubusercontent.com/tigergraph/gsql-graph-algorithms/master/algorithms/Community/local_clustering_coefficient/tg_lcc.gsql");
        ("louvain",
          Leaf "https://raw.githubusercontent.com/tigergraph/gsql-graph-algorithms/master/algorithms/Community/louvain/tg_louvain.gsql");
        ("triangle_counting",
          Dict [
            ("fast",
              Leaf "https://raw.githubusercontent.com/tigergraph/gsql-graph-algorithms/master/algorithms/Community/triangle_counting/fast/tg_tri_count_fast.gsql")])]);
    ("Embeddings",
      Dict [
        ("FastRP",
          Leaf "https://raw.githubusercontent.com/tigergraph/gsql-graph-algorithms/master/algorithms/GraphML/Embeddings/FastRP/tg_fastRP.gsql")]);
    ("Path",
      Dict [
        ("bfs",
          Leaf "https://raw.githubusercontent.com/tigergraph/gsql-graph-algorithms/master/algorithms/Path/bfs/tg_bfs.gsql");
        ("cycle_detection",
          Dict [
            ("count",
              Leaf "https://raw.githubusercontent.com/tigergraph/gsql-graph-algorithms/master/algorithms/Path/cycle_detection/count/tg_cycle_detection_count.gsql")]);
        ("shortest_path",
          Dict [
            ("unweighted",
              Leaf "https://raw.githubusercontent.com/tigergraph/gsql-graph-algorithms/master/algorithms/Path/shortest_path/unweighted/tg_shortest_ss_no_wt.gsql")])]);
    ("Topological Link Prediction",
      Dict [
        ("common_neighbors",
          Leaf "https://raw.githubusercontent.com/tigergraph/gsql-graph-algorithms/master/algorithms/Topological%20Link%20Prediction/common_neighbors/tg_common_neighbors.gsql");
        ("preferential_attachment",
          Leaf "https://raw.githubusercontent.com/tigergraph/gsql-graph-algorithms/master/algorithms/Topological%20Link%20Prediction/preferential_attachment/tg_preferential_attachment.gsql");
        ("same_community",
          Leaf "https://raw.githubusercontent.com/tigergraph/gsql-graph-algorithms/master/algorithms/Topological%20Link%20Prediction/same_community/tg_same_community.gsql");
        ("total_neighbors",
          Leaf "https://raw.githubusercontent.com/tigergraph/gsql-graph-algorithms/master/algorithms/Topological%20Link%20Prediction/total_neighbors/tg_total_neighbors.gsql")])
  ].

(** [self.queryResult_type_dict], the type of the feature each algorithm
    writes. *)
Definition queryResult_type_dict0 : gmap string string :=
  list_to_map [
    ("tg_pagerank", "Float");
    ("tg_article_rank", "Float");
    ("tg_betweenness_cent", "Float");
    ("tg_closeness_cent", "Float");
    ("tg_closeness_cent_approx", "Float");
    ("tg_degree_cent", "INT");
    ("tg_eigenvector_cent", "Float");
    ("tg_harmonic_cent", "INT");
    ("tg_pagerank_wt", "Float");
    ("tg_scc", "INT");
    ("tg_kcore", "INT");
    ("tg_lcc", "Float");
    ("tg_bfs", "INT");
    ("tg_shortest_ss_no_wt", "INT");
    ("tg_fastRP", "List<Double>");
    ("tg_label_prop", "INT");
    ("tg_louvain", "INT")
  ].

(** The routine names of the catalog, in traversal order. *)
Definition catalog_names (d : dict) : list string := map leaf_name (_get_values d).

(** ** Values of query parameters, over an opaque type of floats *)

Inductive pyvalue (pyfloat : Type) : Type :=
  | VNone
  | VBool (b : bool)
  | VInt (n : Z)
  | VFloat (x : pyfloat)
  | VStr (s : string).
Arguments VNone {pyfloat}.
Arguments VBool {pyfloat} b.
Arguments VInt {pyfloat} n.
Arguments VFloat {pyfloat} x.
Arguments VStr {pyfloat} s.

(** ** A small server, to run the methods on concrete inputs *)

Module Demo.

Record server : Type := {
  installed : list string;
  EdgeTypes : list type_meta;
  VertexTypes : list type_meta;
}.

Definition graphname : string := "social".

(** Floats are kept as the text of their literal. *)
Definition pyfloat : Type := string.

Definition is_float_char (c : ascii) : bool :=
  match Py.digit_val c with
  | Some _ => true
  | None => Ascii.eqb c "."%char
  end.

Definition float_of_str (s : string) : option pyfloat :=
  match Py.strip s with
  | EmptyString => None
  | t => if forallb is_float_char (list_ascii_of_string t) then Some t else None
  end.

Definition str_of_list (l : list string) : string :=
  "[" +:+ String.concat ", " (map (fun n => "'" +:+ n +:+ "'") l) +:+ "]".

Definition random_string (draw n : nat) : string :=
  string_of_list_ascii (repeat "a"%char n).

(** The sources behind the catalog: three headers are spelled out, any
    other location holds a query without parameters. *)
Definition requests_get_text (url : string) : string :=
  if String.eqb (leaf_name url) "tg_pagerank"
  then "CREATE QUERY tg_pagerank(INT k = 5, STRING label = " +:+ dq +:+ "x" +:+ dq
       +:+ ") {}"
  else if String.eqb (leaf_name url) "tg_bfs"
  then "CREATE QUERY tg_bfs(STRING v_type, INT k = 5) {}"
  else if String.eqb (leaf_name url) "tg_lcc"
  then "CREATE QUERY tg_lcc(INT top_k = 100, STRING result_attr = " +:+ dq +:+ dq
       +:+ ") {}"
  else "CREATE QUERY " +:+ leaf_name url +:+ "() {} // " +:+ url.

Definition getInstalledQueries (s : server) : list string := installed s.

(** The server registers a query when the command carries an install
    directive, and accepts every other command. *)
Definition gsql (s : server) (command : string) : string * server :=
  match Py.item (Py.split command "install Query ") 1 with
  | Some name =>
      ("Query installation finished.",
       {| installed :=
            ("GET /query/" +:+ graphname +:+ "/" +:+ Py.strip name) :: installed s;
          EdgeTypes := EdgeTypes s;
          VertexTypes := VertexTypes s |})
  | None => ("Global schema change succeeded.", s)
  end.

Definition qresult : Type := string.

Definition runInstalledQuery (s : server) (query_name : string)
    (params : option (gmap string (pyvalue pyfloat))) (timeout : Z)
    (sizeLimit : option Z) : option qresult * server :=
  (Some ("results of " +:+ query_name), s).

Definition getSchema_EdgeTypes (s : server) : list type_meta := EdgeTypes s.

Definition getVertexTypes (s : server) : list string := map Name (VertexTypes s).

Definition getVertexType (s : server) (vertexType : pyarg)
  : res (option type_meta) :=
  Ok (List.find (name_is vertexType) (VertexTypes s)).

Definition server0 : server :=
  {| installed := [];
     EdgeTypes :=
       [ {| Name := "Knows"; Attributes := [ {| AttributeName := "since" |} ] |} ];
     VertexTypes :=
       [ {| Name := "Person";
            Attributes := [ {| AttributeName := "name" |};
                            {| AttributeName := "score" |} ] |};
         {| Name := "City";
            Attributes := [ {| AttributeName := "score" |} ] |} ] |}.

(** A catalog in which two categories hold a routine of the same name. *)
Definition twice : dict :=
  [ ("Path", Dict [ ("dup", Leaf "https://host/master/algorithms/Path/tg_dup.gsql") ]);
    ("Community",
     Dict [ ("dup", Leaf "https://host/master/algorithms/Community/tg_dup.gsql") ]) ].

End Demo.

(** ** Edge functions of the connection ([pyTigerGraphEdge]) *)

Module Edge.

Inductive exn : Type :=
  | TigerGraphException (message : string) (code : option string)
  | IndexError.

Inductive outcome (A : Type) : Type :=
  | Returns (a : A)
  | Raises (e : exn).
Arguments Returns {A} a.
Arguments Raises {A} e.

(** A vertex identifier or a limit: a string or an integer. *)
Inductive pyid : Type :=
  | IdStr (s : string)
  | IdInt (n : Z).

Global Instance pyid_eq_dec : EqDecision pyid.
Proof. solve_decision. Defined.

(** [str(i)] *)
Definition str (i : pyid) : string :=
  match i with
  | IdStr s => s
  | IdInt n => pretty n
  end.

(** The truth value of a string and of an identifier. *)
Definition truthy (s : string) : bool := negb (String.eqb s "").

Definition truthy_id (i : pyid) : bool :=
  match i with
  | IdStr s => truthy s
  | IdInt n => negb (n =? 0)
  end.

(** The block [getEdges] and [delEdges] share: the edge type, the target
    vertex type and the target vertex ID are appended to the URL, each only
    when the one before it was given. *)
Definition edges_of_vertex (restppUrl graphname sourceVertexType : string)
    (sourceVertexId : pyid) (edgeType targetVertexType : string)
    (targetVertexId : pyid) : string :=
  let url :=
    restppUrl +:+ "/graph/" +:+ graphname +:+ "/edges/" +:+ sourceVertexType
    +:+ "/" +:+ str sourceVertexId in
  if truthy edgeType then
    let url := url +:+ "/" +:+ edgeType in
    if truthy targetVertexType then
      let url := url +:+ "/" +:+ targetVertexType in
      if truthy_id targetVertexId then url +:+ "/" +:+ str targetVertexId
      else url
    else url
  else url.

(** [url += ("?" if isFirst else "&") + text; isFirst = False], when the
    condition holds. *)
Definition add_param (cond : bool) (text : string) (st : string * bool)
  : string * bool :=
  if cond
  then (fst st +:+ (if snd st then "?" else "&") +:+ text, false)
  else st.

(** The truth value of the optional [limit] of [getEdges]. *)
Definition truthy_limit (limit : option pyid) : bool :=
  match limit with
  | Some i => truthy_id i
  | None => false
  end.

Definition str_limit (limit : option pyid) : string :=
  match limit with
  | Some i => str i
  | None => "None"
  end.

(** The URL [getEdges] requests. *)
Definition getEdges_url (restppUrl graphname sourceVertexType : string)
    (sourceVertexId : pyid) (edgeType targetVertexType : string)
    (targetVertexId : pyid) (select where_ : string) (limit : option pyid)
    (sort : string) (timeout : Z) : outcome string :=
  if negb (truthy sourceVertexType) || negb (truthy_id sourceVertexId)
  then Raises (TigerGraphException
                 "Both source vertex type and source vertex ID must be provided."
                 None)
  else
    let url :=
      edges_of_vertex restppUrl graphname sourceVertexType sourceVertexId
        edgeType targetVertexType targetVertexId in
    let st := (url, true) in
    let st :=
      if truthy select then (fst st +:+ "?select=" +:+ select, false) else st in
    let st := add_param (truthy where_) ("filter=" +:+ where_) st in
    let st := add_param (truthy_limit limit) ("limit=" +:+ str_limit limit) st in
    let st := add_param (truthy sort) ("sort=" +:+ sort) st in
    let st := add_param (0 <? timeout) ("timeout=" +:+ pretty timeout) st in
    Returns (fst st).

(** What [getEdges] returns, by [fmt]. *)
Inductive edges (J D : Type) : Type :=
  | AsPy (ret : J)
  | AsJson (text : string)
  | AsDf (df : D).
Arguments AsPy {J D} ret.
Arguments AsJson {J D} text.
Arguments AsDf {J D} df.

(** [getEdges]; the request [_get], [json.dumps] and the conversion to a
    data frame are parameters. *)
Definition getEdges {J D : Type} (_get : string -> outcome J)
    (json_dumps : J -> string)
    (edgeSetToDataFrame : J -> bool -> bool -> outcome D)
    (restppUrl graphname sourceVertexType : string)
    (sourceVertexId : pyid) (edgeType targetVertexType : string)
    (targetVertexId : pyid) (select where_ : string) (limit : option pyid)
    (sort fmt : string) (withId withType : bool) (timeout : Z)
  : outcome (edges J D) :=
  match getEdges_url restppUrl graphname sourceVertexType sourceVertexId
          edgeType targetVertexType targetVertexId select where_ limit sort
          timeout with
  | Raises e => Raises e
  | Returns url =>
      match _get url with
      | Raises e => Raises e
      | Returns ret =>
          if String.eqb fmt "json" then Returns (AsJson (json_dumps ret))
          else if String.eqb fmt "df"
          then match edgeSetToDataFrame ret withId withType with
               | Returns df => Returns (AsDf df)
               | Raises e => Raises e
               end
          else Returns (AsPy ret)
      end
  end.

(** The URL [delEdges] requests. *)
Definition delEdges_url (restppUrl graphname sourceVertexType : string)
    (sourceVertexId : pyid) (edgeType targetVertexType : string)
    (targetVertexId : pyid) (where_ : string) (limit : pyid) (sort : string)
    (timeout : Z) : outcome string :=
  if negb (truthy sourceVertexType) || negb (truthy_id sourceVertexId)
  then Raises (TigerGraphException
                 "Both sourceVertexType and sourceVertexId must be provided."
                 None)
  else
    let url :=
      edges_of_vertex restppUrl graphname sourceVertexType sourceVertexId
        edgeType targetVertexType targetVertexId in
    let st := (url, true) in
    let st := add_param (truthy where_) ("filter=" +:+ where_) st in
    let st :=
      add_param (truthy_id limit && truthy sort)
        ("limit=" +:+ str limit +:+ "&sort=" +:+ sort) st in
    let st := add_param (0 <? timeout) ("timeout=" +:+ pretty timeout) st in
    Returns (fst st).

(** A row of the answer to a deletion. *)
Record deleted_row : Type := { e_type : string; deleted_edges : Z }.

(** [for r in res: ret[r["e_type"]] = r["deleted_edges"]] *)
Definition deleted_counts (res : list deleted_row) : gmap string Z :=
  fold_left (fun ret r => <[e_type r := deleted_edges r]> ret) res ∅.

(** [delEdges]; the request [_delete] is a parameter. *)
Definition delEdges (_delete : string -> outcome (list deleted_row))
    (restppUrl graphname sourceVertexType : string)
    (sourceVertexId : pyid) (edgeType targetVertexType : string)
    (targetVertexId : pyid) (where_ : string) (limit : pyid) (sort : string)
    (timeout : Z) : outcome (gmap string Z) :=
  match delEdges_url restppUrl graphname sourceVertexType sourceVertexId
          edgeType targetVertexType targetVertexId where_ limit sort timeout with
  | Raises e => Raises e
  | Returns url =>
      match _delete url with
      | Raises e => Raises e
      | Returns res => Returns (deleted_counts res)
      end
  end.

(** The query string of a URL, as a list of parameters would give it. *)
Definition query_string (params : list string) : string :=
  match params with
  | [] => ""
  | p :: ps => "?" +:+ p +:+ Py.join (map (fun q => "&" +:+ q) ps)
  end.

Definition given (cond : bool) (text : string) : list string :=
  if cond then [text] else [].

(** *** Upserting edges *)

(** A dictionary in the order of insertion: [d.get(k)] and [d[k] = v]. *)
Fixpoint od_get {K V} `{EqDecision K} (d : list (K * V)) (k : K) : option V :=
  match d with
  | [] => None
  | (k', v) :: r => if decide (k' = k) then Some v else od_get r k
  end.

Fixpoint od_set {K V} `{EqDecision K} (d : list (K * V)) (k : K) (v : V)
  : list (K * V) :=
  match d with
  | [] => [(k, v)]
  | (k', v') :: r =>
      if decide (k' = k) then (k', v) :: r else (k', v') :: od_set r k v
  end.

(** [if k not in d: d[k] = {}] followed by a change of [d[k]] in place. *)
Definition od_change {K V} `{EqDecision K} (d : list (K * list V)) (k : K)
    (f : list V -> list V) : list (K * list V) :=
  od_set d k (f (default [] (od_get d k))).

(** The levels of the payload, from the inside: target vertex ID, target
    vertex type, edge type, source vertex ID, source vertex type. *)
Definition l4 (V : Type) : Type := list (pyid * V).
Definition l3 (V : Type) : Type := list (string * l4 V).
Definition l2 (V : Type) : Type := list (string * l3 V).
Definition l1 (V : Type) : Type := list (pyid * l2 V).
Definition payload (V : Type) : Type := list (string * l1 V).

(** An item of [edges]: a tuple of a source ID, a target ID and, when it
    has a third item, attributes; [Short] is a tuple of fewer than two
    items. *)
Inductive edge (A : Type) : Type :=
  | Short
  | Edge2 (source target : pyid)
  | Edge3 (source target : pyid) (attributes : A).
Arguments Short {A}.
Arguments Edge2 {A} source target.
Arguments Edge3 {A} source target attributes.

(** The body of the loop of [upsertEdges] once [vals] is known. *)
Definition place {V} (edgeType targetVertexType : string) (data : l1 V)
    (source target : pyid) (vals : V) : l1 V :=
  od_change data source (fun d2 =>
    od_change d2 edgeType (fun d3 =>
      od_change d3 targetVertexType (fun d4 => od_set d4 target vals))).

(** The loop of [upsertEdges]. *)
Fixpoint upsertEdges_loop {A V} (_upsertAttrs : A -> V) (empty : V)
    (edgeType targetVertexType : string) (edges : list (edge A)) (data : l1 V)
  : outcome (l1 V) :=
  match edges with
  | [] => Returns data
  | e :: rest =>
      match e with
      | Short => Raises IndexError
      | Edge2 s t =>
          upsertEdges_loop _upsertAttrs empty edgeType targetVertexType rest
            (place edgeType targetVertexType data s t empty)
      | Edge3 s t a =>
          upsertEdges_loop _upsertAttrs empty edgeType targetVertexType rest
            (place edgeType targetVertexType data s t (_upsertAttrs a))
      end
  end.

(** The dictionary [upsertEdges] hands to [json.dumps] under ["edges"]. *)
Definition upsertEdges_data {A V} (_upsertAttrs : A -> V) (empty : V)
    (sourceVertexType edgeType targetVertexType : string)
    (edges : list (edge A)) : outcome (payload V) :=
  match upsertEdges_loop _upsertAttrs empty edgeType targetVertexType edges [] with
  | Returns data => Returns [(sourceVertexType, data)]
  | Raises e => Raises e
  end.

(** A row of the answer to an upsert. *)
Record accepted_row : Type := { accepted_edges : Z }.

(** [self._post(url, data=data)[0]["accepted_edges"]] *)
Definition post_accepted (_post : string -> string -> outcome (list accepted_row))
    (url data : string) : outcome Z :=
  match _post url data with
  | Raises e => Raises e
  | Returns [] => Raises IndexError
  | Returns (r :: _) => Returns (accepted_edges r)
  end.

(** [upsertEdges]; [_upsertAttrs], the empty dictionary of values,
    [json.dumps] of the dictionary under ["edges"] and the request [_post]
    are parameters. *)
Definition upsertEdges {A V} (_upsertAttrs : A -> V) (empty : V)
    (json_dumps : payload V -> string)
    (_post : string -> string -> outcome (list accepted_row))
    (restppUrl graphname sourceVertexType edgeType targetVertexType : string)
    (edges : list (edge A)) : outcome Z :=
  match upsertEdges_data _upsertAttrs empty sourceVertexType edgeType
          targetVertexType edges with
  | Raises e => Raises e
  | Returns data =>
      post_accepted _post (restppUrl +:+ "/graph/" +:+ graphname)
        (json_dumps data)
  end.

(** [upsertEdge]; [empty_attributes] is the dictionary that stands in for
    [attributes] when it is [None]. *)
Definition upsertEdge {A V} (_upsertAttrs : A -> V) (empty_attributes : A)
    (json_dumps : payload V -> string)
    (_post : string -> string -> outcome (list accepted_row))
    (restppUrl graphname sourceVertexType : string) (sourceVertexId : pyid)
    (edgeType targetVertexType : string) (targetVertexId : pyid)
    (attributes : option A) : outcome Z :=
  let attributes := default empty_attributes attributes in
  let vals := _upsertAttrs attributes in
  let data : payload V :=
    [(sourceVertexType,
      [(sourceVertexId,
        [(edgeType, [(targetVertexType, [(targetVertexId, vals)])])])])] in
  post_accepted _post (restppUrl +:+ "/graph/" +:+ graphname) (json_dumps data).

(** [data[svt][source][edgeType][tvt][target]], when every level has the
    key. *)
Definition source_get {V} (d1 : l1 V) (source : pyid)
    (edgeType targetVertexType : string) (target : pyid) : option V :=
  d2 ← od_get d1 source;
  d3 ← od_get d2 edgeType;
  d4 ← od_get d3 targetVertexType;
  od_get d4 target.

Definition payload_get {V} (data : payload V)
    (sourceVertexType : string) (source : pyid)
    (edgeType targetVertexType : string) (target : pyid) : option V :=
  d1 ← od_get data sourceVertexType;
  source_get d1 source edgeType targetVertexType target.

(** The IDs and the values of a tuple of at least two items. *)
Definition edge_key {A} (e : edge A) : option (pyid * pyid) :=
  match e with
  | Short => None
  | Edge2 s t | Edge3 s t _ => Some (s, t)
  end.

Definition edge_vals {A V} (_upsertAttrs : A -> V) (empty : V) (e : edge A) : V :=
  match e with
  | Edge3 _ _ a => _upsertAttrs a
  | _ => empty
  end.

(** *** Counting edges *)

Record count_row : Type := { c_type : string; count : Z }.

(** What [getEdgeCountFrom] returns: the count of the one row of the asked
    type, or a dictionary of all rows. *)
Inductive counts : Type :=
  | Single (n : Z)
  | PerType (m : gmap string Z).

Definition counts_of (edgeType : string) (res : list count_row) : counts :=
  match res with
  | [r] =>
      if String.eqb (c_type r) edgeType then Single (count r)
      else PerType (fold_left (fun ret r => <[c_type r := count r]> ret) res ∅)
  | _ => PerType (fold_left (fun ret r => <[c_type r := count r]> ret) res ∅)
  end.

Definition truthy_opt (i : option pyid) : bool :=
  match i with
  | Some i => truthy_id i
  | None => false
  end.

(** The body of the [POST] to [/builtins]. *)
Definition stat_edge_number (edgeType sourceVertexType targetVertexType : string)
  : string :=
  "{" +:+ dq +:+ "function" +:+ dq +:+ ":" +:+ dq +:+ "stat_edge_number" +:+ dq
  +:+ "," +:+ dq +:+ "type" +:+ dq +:+ ":" +:+ dq +:+ edgeType +:+ dq
  +:+ (if truthy sourceVertexType
       then "," +:+ dq +:+ "from_type" +:+ dq +:+ ":" +:+ dq +:+ sourceVertexType
            +:+ dq
       else "")
  +:+ (if truthy targetVertexType
       then "," +:+ dq +:+ "to_type" +:+ dq +:+ ":" +:+ dq +:+ targetVertexType
            +:+ dq
       else "")
  +:+ "}".

(** [getEdgeCountFrom]; [_safeChar] and the requests [_get] and [_post] are
    parameters. *)
Definition getEdgeCountFrom (_safeChar : pyid -> string)
    (_get : string -> outcome (list count_row))
    (_post : string -> string -> outcome (list count_row))
    (restppUrl graphname sourceVertexType : string)
    (sourceVertexId : option pyid) (edgeType targetVertexType : string)
    (targetVertexId : option pyid) (where_ : string) : outcome counts :=
  let res :=
    if truthy where_ || (truthy sourceVertexType && truthy_opt sourceVertexId)
    then
      if negb (truthy sourceVertexType) || negb (truthy_opt sourceVertexId)
      then Raises (TigerGraphException
                     "If where condition is specified, then both sourceVertexType and sourceVertexId must be provided too."
                     None)
      else
        let url :=
          restppUrl +:+ "/graph/" +:+ _safeChar (IdStr graphname) +:+ "/edges/"
          +:+ _safeChar (IdStr sourceVertexType) +:+ "/"
          +:+ _safeChar (default (IdStr "") sourceVertexId) in
        let url :=
          if truthy edgeType then
            let url := url +:+ "/" +:+ _safeChar (IdStr edgeType) in
            if truthy targetVertexType then
              let url := url +:+ "/" +:+ _safeChar (IdStr targetVertexType) in
              if truthy_opt targetVertexId
              then url +:+ "/" +:+ _safeChar (default (IdStr "") targetVertexId)
              else url
            else url
          else url in
        let url := url +:+ "?count_only=true" in
        let url :=
          if truthy where_ then url +:+ "&filter=" +:+ _safeChar (IdStr where_)
          else url in
        _get url
    else
      if negb (truthy edgeType)
      then Raises (TigerGraphException
                     ("A valid edge type or " +:+ dq +:+ "*" +:+ dq
                      +:+ " must be specified for edge type.") None)
      else
        _post (restppUrl +:+ "/builtins/" +:+ graphname)
          (stat_edge_number edgeType sourceVertexType targetVertexType) in
  match res with
  | Raises e => Raises e
  | Returns res => Returns (counts_of edgeType res)
  end.

(** [getEdgeCount] *)
Definition getEdgeCount (_safeChar : pyid -> string)
    (_get : string -> outcome (list count_row))
    (_post : string -> string -> outcome (list count_row))
    (restppUrl graphname edgeType sourceVertexType targetVertexType : string)
  : outcome counts :=
  getEdgeCountFrom _safeChar _get _post restppUrl graphname sourceVertexType
    None edgeType targetVertexType None "".

End Edge.

(** ** Proof steps that recur *)

(** A closed equation both sides of which evaluate to the same value. *)
Ltac by_evaluation := vm_compute; reflexivity.

(** A decidable closed proposition, such as membership in a literal list. *)
Ltac by_decision := apply (bool_decide_unpack _); vm_compute; exact I.

(** ** The featurizer over a connection *)

Section Featurizer.

(** The state of the remote server, Python floats, and what a remote query
    returns; all three are opaque here. *)
Context {server pyfloat qresult : Type}.

(** What appears on standard output. *)
Inductive printed : Type :=
  | Line (s : string)
  | DefaultParams (params : gmap string (pyvalue pyfloat)).

(** The calls that leave the process. *)
Inductive call : Type :=
  | HttpGet (url : string)
  | GetInstalledQueries
  | Gsql (command : string)
  | RunInstalledQuery (query_name : string)
      (params : option (gmap string (pyvalue pyfloat))) (timeout : Z)
      (sizeLimit : option Z)
  | GetVertexTypes
  | GetEdgeTypes
  | GetVertexType (t : pyarg)
  | GetEdgeType (t : pyarg).

(** The collaborators are parameters of the development: the name of the
    graph and the methods of [self.conn] other than the two edge accessors
    (each method reads or changes the state of the server), the text
    [requests.get(url).text] behind a location, [random_string] of
    [gds.utilities] (by the number of the draw and the length), and the
    built-ins [float] (on a string) and [str] (on a list of strings).
    [getVertexType] answers with the metadata dictionary of a vertex type,
    [None] standing for a dictionary without ['Attributes']. *)
Variable graphname : string.
Variable requests_get_text : string -> string.
Variable float_of_str : string -> option pyfloat.
Variable str_of_list : list string -> string.
Variable random_string : nat -> nat -> string.
Variable getInstalledQueries : server -> list string.
Variable gsql : server -> string -> string * server.
Variable runInstalledQuery :
  server -> string -> option (gmap string (pyvalue pyfloat)) -> Z -> option Z ->
  option qresult * server.
Variable getSchema_EdgeTypes : server -> list type_meta.
Variable getVertexTypes : server -> list string.
Variable getVertexType : server -> pyarg -> res (option type_meta).

(** The [Featurizer] object with the world around it: the server behind
    [self.conn], the fields of [self], standard output, the remote calls made
    so far (oldest first) and the number of random strings drawn. *)
Record state : Type := {
  remote : server;
  queryResult_type_dict : gmap string string;
  params_dict : gmap string (gmap string (pyvalue pyfloat));
  query : string;
  algo_dict : dict;
  result_attr : option string;
  stdout : list printed;
  calls : list call;
  draws : nat;
}.

(** [Featurizer(conn)] *)
Definition __init__ (conn : server) : state :=
  {| remote := conn;
     queryResult_type_dict := queryResult_type_dict0;
     params_dict := ∅;
     query := "";
     algo_dict := algo_dict0;
     result_attr := None;
     stdout := [];
     calls := [];
     draws := O |}.

(** *** State and exceptions *)

Definition M (A : Type) : Type := state -> res A * state.

Definition ret {A} (a : A) : M A := fun s => (Ok a, s).

Definition raise {A} (e : pyexn) : M A := fun s => (Raise e, s).

Definition bind {A B} (m : M A) (f : A -> M B) : M B :=
  fun s =>
    match m s with
    | (Ok a, s') => f a s'
    | (Raise e, s') => (Raise e, s')
    end.

Notation "x <- m ;; k" := (bind m (fun x => k))
  (at level 100, m at next level, right associativity).
Notation "m ;;; k" := (bind m (fun _ => k))
  (at level 100, right associativity).

Definition gets {A} (f : state -> A) : M A := fun s => (Ok (f s), s).

Definition lift {A} (r : res A) : M A := fun s => (r, s).

Definition written (o : list printed) (s : state) : state :=
  {| remote := remote s;
     queryResult_type_dict := queryResult_type_dict s;
     params_dict := params_dict s;
     query := query s;
     algo_dict := algo_dict s;
     result_attr := result_attr s;
     stdout := stdout s ++ o;
     calls := calls s;
     draws := draws s |}.

Definition called (c : list call) (s : state) : state :=
  {| remote := remote s;
     queryResult_type_dict := queryResult_type_dict s;
     params_dict := params_dict s;
     query := query s;
     algo_dict := algo_dict s;
     result_attr := result_attr s;
     stdout := stdout s;
     calls := calls s ++ c;
     draws := draws s |}.

Definition with_remote (r : server) (s : state) : state :=
  {| remote := r;
     queryResult_type_dict := queryResult_type_dict s;
     params_dict := params_dict s;
     query := query s;
     algo_dict := algo_dict s;
     result_attr := result_attr s;
     stdout := stdout s;
     calls := calls s;
     draws := draws s |}.

Definition with_params_dict (p : gmap string (gmap string (pyvalue pyfloat))) (s : state)
  : state :=
  {| remote := remote s;
     queryResult_type_dict := queryResult_type_dict s;
     params_dict := p;
     query := query s;
     algo_dict := algo_dict s;
     result_attr := result_attr s;
     stdout := stdout s;
     calls := calls s;
     draws := draws s |}.

Definition with_query (q : string) (s : state) : state :=
  {| remote := remote s;
     queryResult_type_dict := queryResult_type_dict s;
     params_dict := params_dict s;
     query := q;
     algo_dict := algo_dict s;
     result_attr := result_attr s;
     stdout := stdout s;
     calls := calls s;
     draws := draws s |}.

Definition with_result_attr (a : option string) (s : state) : state :=
  {| remote := remote s;
     queryResult_type_dict := queryResult_type_dict s;
     params_dict := params_dict s;
     query := query s;
     algo_dict := algo_dict s;
     result_attr := a;
     stdout := stdout s;
     calls := calls s;
     draws := draws s |}.

Definition with_draws (n : nat) (s : state) : state :=
  {| remote := remote s;
     queryResult_type_dict := queryResult_type_dict s;
     params_dict := params_dict s;
     query := query s;
     algo_dict := algo_dict s;
     result_attr := result_attr s;
     stdout := stdout s;
     calls := calls s;
     draws := n |}.

(** [print(s)] *)
Definition print (s : string) : M unit := fun st => (Ok tt, written [Line s] st).

(** A printer run against standard output. *)
Definition run_printer (p : printer) : M unit :=
  fun st => (snd p, written (map Line (fst p)) st).

(** *** The connection and the other collaborators as computations *)

Definition requests_get (url : string) : M string :=
  fun s => (Ok (requests_get_text url), called [HttpGet url] s).

Definition conn_getInstalledQueries : M (list string) :=
  fun s => (Ok (getInstalledQueries (remote s)), called [GetInstalledQueries] s).

Definition conn_gsql (command : string) : M string :=
  fun s =>
    let '(resp, r) := gsql (remote s) command in
    (Ok resp, with_remote r (called [Gsql command] s)).

Definition conn_runInstalledQuery (query_name : string)
    (params : option (gmap string (pyvalue pyfloat))) (timeout : Z) (sizeLimit : option Z)
  : M (option qresult) :=
  fun s =>
    let '(result, r) :=
      runInstalledQuery (remote s) query_name params timeout sizeLimit in
    (Ok result,
     with_remote r
       (called [RunInstalledQuery query_name params timeout sizeLimit] s)).

Definition conn_getVertexTypes : M (list string) :=
  fun s => (Ok (getVertexTypes (remote s)), called [GetVertexTypes] s).

Definition conn_getVertexType (t : pyarg) : M (option type_meta) :=
  fun s => (getVertexType (remote s) t, called [GetVertexType t] s).

(** [pyTigerGraphEdge.getEdgeTypes] *)
Definition getEdgeTypes (r : server) : list string :=
  map Name (getSchema_EdgeTypes r).

(** [pyTigerGraphEdge.getEdgeType]: the metadata of the first type of that
    name, the empty dictionary ([None]) when there is none; the warning of
    the latter case concatenates [edgeType] to a string. *)
Definition getEdgeType (r : server) (edgeType : pyarg) : res (option type_meta) :=
  match List.find (name_is edgeType) (getSchema_EdgeTypes r) with
  | Some et => Ok (Some et)
  | None =>
      match edgeType with
      | AStr _ => Ok None
      | AList _ => Raise TypeError
      end
  end.

Definition conn_getEdgeTypes : M (list string) :=
  fun s => (Ok (getEdgeTypes (remote s)), called [GetEdgeTypes] s).

Definition conn_getEdgeType (t : pyarg) : M (option type_meta) :=
  fun s => (getEdgeType (remote s) t, called [GetEdgeType t] s).

Definition draw_random_string (n : nat) : M string :=
  fun s => (Ok (random_string (draws s) n), with_draws (S (draws s)) s).

(** *** Catalog and resolver *)

(** [listAlgorithms(category)] *)
Definition listAlgorithms (category : option string) : M unit :=
  d <- gets algo_dict ;;
  run_printer (listing d category).

(** ["GET /query/{}/{}".format(self.conn.graphname, query_name)]: the entry
    of the installed-query listing for a routine. *)
Definition endpoint (query_name : string) : string :=
  "GET /query/" +:+ graphname +:+ "/" +:+ query_name.

(** [_is_query_installed(query_name)] *)
Definition _is_query_installed (query_name : string) : M bool :=
  let resp := endpoint query_name in
  queries <- conn_getInstalledQueries ;;
  ret (bool_decide (resp ∈ queries)).

Definition not_included : string :=
  "The query name is not included in the list of queries.".

(** The loop of [_get_query]: every location whose file name is the query
    name is downloaded, and the text of the last one is kept. *)
Fixpoint _get_query_loop (query_name : string) (algo_list : list string)
    (query : string) : M string :=
  match algo_list with
  | [] => ret query
  | query_url :: rest =>
      if String.eqb query_name (leaf_name query_url)
      then query <- requests_get query_url ;;
           _get_query_loop query_name rest query
      else _get_query_loop query_name rest query
  end.

(** [_get_query(query_name)] *)
Definition _get_query (query_name : string) : M string :=
  algo_list <- gets (fun s => _get_values (algo_dict s)) ;;
  query <- _get_query_loop query_name algo_list "" ;;
  if String.eqb query ""
  then listAlgorithms None ;;; raise (ValueError not_included)
  else ret query.

(** The loop of [_get_query_url]: it returns at the first location whose
    file name is the query name; [None] when the loop runs to its end. *)
Fixpoint _get_query_url_loop (query_name : string) (algo_list : list string)
  : option (res string) :=
  match algo_list with
  | [] => None
  | query_url :: rest =>
      if String.eqb query_name (leaf_name query_url)
      then Some (blob_url query_url)
      else _get_query_url_loop query_name rest
  end.

(** [_get_query_url(query_name)] *)
Definition _get_query_url (query_name : string) : M string :=
  algo_list <- gets (fun s => _get_values (algo_dict s)) ;;
  match _get_query_url_loop query_name algo_list with
  | Some r => lift r
  | None => listAlgorithms None ;;; raise (ValueError not_included)
  end.

(** *** Installer *)

(** [s.splitlines()[-1]] *)
Definition last_line (resp : string) : res string :=
  match Py.last_item (Py.splitlines resp) with
  | Some status => Ok status
  | None => Raise IndexError
  end.

(** [for placeholder in replace: query = query.replace(placeholder, ...)] *)
Fixpoint replace_all (replace : list (string * string)) (query : string)
  : string :=
  match replace with
  | [] => query
  | (placeholder, text) :: rest =>
      replace_all rest (Py.replace query placeholder text)
  end.

(** The items of the optional dictionary [replace]; [None] and the empty
    dictionary are both false and hold none. *)
Definition replace_items (replace : option (list (string * string)))
  : list (string * string) :=
  match replace with
  | Some r => r
  | None => []
  end.

(** The first step of [_install_query_file]: when [replace] has the suffix
    token, the token is replaced in the name. *)
Definition final_name (query_name : string)
    (replace : option (list (string * string))) : string :=
  match dict_get (replace_items replace) "{QUERYSUFFIX}" with
  | Some suffix => Py.replace query_name "{QUERYSUFFIX}" suffix
  | None => query_name
  end.

(** [_install_query_file(query_name, replace)] *)
Definition _install_query_file (query_name : string)
    (replace : option (list (string * string))) : M string :=
  let query_name := final_name query_name replace in
  installed <- _is_query_installed (Py.strip query_name) ;;
  if installed : bool then ret query_name
  else
    query <- _get_query query_name ;;
    let query := replace_all (replace_items replace) query in
    (fun s => (Ok tt, with_query query s)) ;;;
    let query :=
      "USE GRAPH " +:+ graphname +:+ nl +:+ query +:+ nl +:+
      "install Query " +:+ query_name +:+ nl in
    print "Installing and optimizing the queries, it might take a minute" ;;;
    resp <- conn_gsql query ;;
    status <- lift (last_line resp) ;;
    if Py.contains "Failed" status
    then raise (ConnectionError status)
    else ret query_name.

(** [installAlgorithm(query_name)] *)
Definition installAlgorithm (query_name : string) : M string :=
  resp <- _install_query_file query_name None ;;
  ret (Py.strip resp).

(** *** Schema mutator *)

(** [str(t)] as [format] inserts it. *)
Definition str_of_arg (t : pyarg) : string :=
  match t with
  | AStr s => s
  | AList l => str_of_list l
  end.

(** [meta_data['Attributes'][i]['AttributeName']] for every [i] *)
Definition attribute_names (meta_data : option type_meta) : res (list string) :=
  match meta_data with
  | Some md => Ok (map AttributeName (Attributes md))
  | None => Raise (KeyError "Attributes")
  end.

Definition alter_statement (schema_type : string) (t : pyarg)
    (attr_name attr_type : string) : string :=
  "ALTER " +:+ schema_type +:+ " " +:+ str_of_arg t +:+ " ADD ATTRIBUTE (" +:+
  attr_name +:+ " " +:+ attr_type +:+ ");" +:+ nl.

(** The end of the loop body: when [attr_name] is given and is not among
    the attributes of [t], the statement for [t] joins [tasks]. *)
Definition queue (schema_type attr_type : string) (attr_name : option string)
    (t : pyarg) (attributes tasks : list string) : list string :=
  match attr_name with
  | Some a =>
      if bool_decide (a ∉ attributes)
      then tasks ++ [alter_statement schema_type t a attr_type]
      else tasks
  | None => tasks
  end.

(** The loop over [target] of [_add_attribute]; [tasks] is the list of
    statements queued so far. *)
Fixpoint _add_attribute_loop (v_type : bool) (schema_type attr_type : string)
    (attr_name : option string) (target : list pyarg) (tasks : list string)
  : M (list string) :=
  match target with
  | [] => ret tasks
  | t :: rest =>
      meta_data <- (if v_type then conn_getVertexType t else conn_getEdgeType t) ;;
      attributes <- lift (attribute_names meta_data) ;;
      let tasks := queue schema_type attr_type attr_name t attributes tasks in
      _add_attribute_loop v_type schema_type attr_type attr_name rest tasks
  end.

(** The first part of [_add_attribute]: the list the loop runs over, and
    whether it holds vertex types.  A [schema_name] empties the list and is
    appended to it as one item. *)
Definition _add_attribute_target (schema_type : string)
    (schema_name : option (list string)) : M (list pyarg * bool) :=
  tv <- (if String.eqb (Py.upper schema_type) "VERTEX"
         then target <- conn_getVertexTypes ;; ret (map AStr target, true)
         else if String.eqb (Py.upper schema_type) "EDGE"
         then target <- conn_getEdgeTypes ;; ret (map AStr target, false)
         else raise (Exception "schema_type has to be VERTEX or EDGE")) ;;
  match schema_name with
  | Some names => ret ([AList names], snd tv)
  | None => ret tv
  end.

(** [_add_attribute(schema_type, attr_type, attr_name, schema_name)] *)
Definition _add_attribute (schema_type attr_type : string)
    (attr_name : option string) (schema_name : option (list string))
  : M string :=
  (fun s => (Ok tt, with_result_attr attr_name s)) ;;;
  tv <- _add_attribute_target schema_type schema_name ;;
  tasks <- _add_attribute_loop (snd tv) schema_type attr_type attr_name (fst tv) [] ;;
  match tasks with
  | [] => ret "Attribute already exists"
  | _ =>
      suffix <- draw_random_string 6 ;;
      let job_name := "add_" +:+ schema_type +:+ "_attr_" +:+ suffix in
      let job :=
        "USE GRAPH " +:+ graphname +:+ nl +:+
        "CREATE GLOBAL SCHEMA_CHANGE JOB " +:+ job_name +:+ " {" +:+ nl +:+
        Py.join tasks +:+
        "}" +:+ nl +:+ "RUN GLOBAL SCHEMA_CHANGE JOB " +:+ job_name in
      resp <- conn_gsql job ;;
      status <- lift (last_line resp) ;;
      if Py.contains "Failed" status
      then raise (ConnectionError status)
      else print status ;;; ret "Global schema change succeeded."
  end.

(** *** Parameter inferencer *)

(** The body of the [try] block works on the local dictionary [_dict]; the
    flag tells whether it ran to its end ([true]) or an exception left it
    ([false]).  Whatever was stored before the exception stays. *)
Definition parser : Type :=
  gmap string (pyvalue pyfloat) -> gmap string (pyvalue pyfloat) * bool.

Definition then_parse (a b : parser) : parser :=
  fun d => let '(d', ok) := a d in if ok : bool then b d' else (d', false).

Definition skip : parser := fun d => (d, true).

Definition when (c : bool) (a : parser) : parser := if c then a else skip.

(** [_dict[key] = value]: the value is computed first, then the key; either
    may raise. *)
Definition assign (key : option string) (value : option (pyvalue pyfloat)) : parser :=
  fun d =>
    match value, key with
    | Some v, Some k => (<[k := v]> d, true)
    | _, _ => (d, false)
    end.

(** One round of the loop over [list_params]. *)
Definition _get_Params_step (param : string) : parser :=
  if Py.contains "=" param then
    let declaration := Py.split_ws (nth 0 (Py.split param "=") "") in
    let literal := Py.item (Py.split param "=") 1 in
    let name := Py.item declaration 1 in
    match Py.item declaration 0 with
    | None => fun d => (d, false)
    | Some params_type =>
        let tag := Py.lower params_type in
        then_parse
          (when (String.eqb tag "float" || String.eqb tag "double")
             (assign name (VFloat <$> (literal ≫= float_of_str))))
        (then_parse
          (when (String.eqb tag "bool")
             (assign name ((fun l => VBool (negb (String.eqb l ""))) <$> literal)))
        (then_parse
          (when (String.eqb tag "int")
             (assign name (VInt <$> (literal ≫= Py.int))))
          (when (String.eqb tag "string")
             (assign name
                ((fun l => VStr (Py.slice l 1 (-2))) <$>
                 (literal ≫= fun l => Py.item (Py.split_ws l) 0))))))
    end
  else assign (Py.item (Py.split_ws param) 1) (Some VNone).

Fixpoint _get_Params_loop (list_params : list string) : parser :=
  match list_params with
  | [] => skip
  | p :: rest => then_parse (_get_Params_step p) (_get_Params_loop rest)
  end.

(** [query[query.find('(')+1:query.find(')')]] *)
Definition input_params (query : string) : string :=
  Py.slice query (Py.find query "(" + 1) (Py.find query ")").

(** The [try] block of [_get_Params] on the text of a query. *)
Definition parse_params (query : string) : gmap string (pyvalue pyfloat) * bool :=
  _get_Params_loop (Py.split (input_params query) ",") ∅.

(** [_get_Params(query_name)] *)
Definition _get_Params (query_name : string) : M (gmap string (pyvalue pyfloat)) :=
  query <- _get_query query_name ;;
  (if String.eqb query ""
   then listAlgorithms None ;;;
        raise (ValueError
                 "The query name is not included in the list of defined queries ")
   else ret tt) ;;;
  let '(_dict, ok) := parse_params query in
  (if ok then ret tt
   else print "The algorithm does not have any input parameter.") ;;;
  (fun s => (Ok tt, with_params_dict (<[query_name := _dict]> (params_dict s)) s)) ;;;
  ret _dict.

(** *** Runner *)

(** The truth value of a dictionary. *)
Definition truthy (params : gmap string (pyvalue pyfloat)) : bool :=
  negb (Nat.eqb (size params) 0).

Definition is_None (v : pyvalue pyfloat) : bool :=
  match v with
  | VNone => true
  | _ => false
  end.

(** [None in params.values()] *)
Definition None_in_values (params : gmap string (pyvalue pyfloat)) : bool :=
  existsb is_None (snd <$> map_to_list params).

(** The truth value of the optional string [feat_name]. *)
Definition truthy_str (s : option string) : option string :=
  match s with
  | Some EmptyString => None
  | o => o
  end.

(** [runAlgorithm(query_name, params, schema_type, feat_name, schema_name,
    timeout, sizeLimit)]; the result [None] is Python's [None]. *)
Definition runAlgorithm (query_name : string)
    (params : option (gmap string (pyvalue pyfloat))) (schema_type : string)
    (feat_name : option string) (schema_name : option (list string))
    (timeout : Z) (sizeLimit : option Z) : M (option qresult) :=
  match params with
  | None =>
      params <- _get_Params query_name ;;
      (fun s => (Ok tt, written [DefaultParams params] s)) ;;;
      if truthy params then
        if None_in_values params then
          query_ulr <- _get_query_url query_name ;;
          raise (ValueError
                   ("Query parameters which are not initialized by default need to be initialized, visit "
                    +:+ query_ulr +:+ "."))
        else ret None
      else
        result <- conn_runInstalledQuery query_name None timeout sizeLimit ;;
        match result with
        | Some r => ret (Some r)
        | None => ret None
        end
  | Some params =>
      defualt_params <- _get_Params query_name ;;
      params <-
        match truthy_str feat_name with
        | Some feat =>
            if bool_decide (is_Some (defualt_params !! "result_attr")) then
              let params := <["result_attr" := VStr feat]> params in
              attr_type <-
                gets (fun s => queryResult_type_dict s !! query_name) ;;
              match attr_type with
              | Some ty =>
                  _add_attribute schema_type ty feat_name schema_name ;;;
                  ret params
              | None => raise (KeyError query_name)
              end
            else
              query_ulr <- _get_query_url query_name ;;
              raise (ValueError
                       ("The algorithm does not provide any feature, see the algorithm details:"
                        +:+ query_ulr +:+ "."))
        | None => ret params
        end ;;
      result <- conn_runInstalledQuery query_name (Some params) timeout sizeLimit ;;
      match result with
      | Some r => ret (Some r)
      | None => ret None
      end
  end.

(** *** Vocabulary of the statements *)

Definition is_http (c : call) : bool :=
  match c with
  | HttpGet _ => true
  | _ => false
  end.

Definition is_gsql (c : call) : bool :=
  match c with
  | Gsql _ => true
  | _ => false
  end.

Definition is_run (c : call) : bool :=
  match c with
  | RunInstalledQuery _ _ _ _ => true
  | _ => false
  end.

(** The locations of a list whose file name is [query_name]. *)
Definition matching (query_name : string) (algo_list : list string)
  : list string :=
  List.filter (fun u => String.eqb query_name (leaf_name u)) algo_list.

(** A session over another catalog. *)
Definition with_algo_dict (d : dict) (s : state) : state :=
  {| remote := remote s;
     queryResult_type_dict := queryResult_type_dict s;
     params_dict := params_dict s;
     query := query s;
     algo_dict := d;
     result_attr := result_attr s;
     stdout := stdout s;
     calls := calls s;
     draws := draws s |}.

(** The metadata request of the loop of [_add_attribute]. *)
Definition fetch_type (v_type : bool) (r : server) (t : pyarg)
  : res (option type_meta) :=
  if v_type then getVertexType r t else getEdgeType r t.

(** The line of a location in the listing, without its indentation. *)
Definition listed (lines : list string) (query_url : string) : bool :=
  match blob_url query_url with
  | Ok b => existsb (fun l => String.eqb (Py.strip l) (b +:+ ".")) lines
  | Raise _ => false
  end.

Definition is_Ok {A} (r : res A) : bool :=
  match r with
  | Ok _ => true
  | Raise _ => false
  end.

(** The text [_get_query] is left with after its loop: that of the last
    matching location, the empty string when none matches. *)
Definition resolved (query_name : string) (d : dict) : string :=
  List.last (map requests_get_text (matching query_name (_get_values d))) "".

(** How a call to [listAlgorithms()] that precedes a [ValueError] ends. *)
Definition listing_then_raise {A} (d : dict) (msg : string) : res A :=
  match snd (listing d None) with
  | Ok _ => Raise (ValueError msg)
  | Raise e => Raise e
  end.

(** What [_get_Params] prints after its [try] block. *)
Definition diagnostic (ok : bool) : list printed :=
  if ok then []
  else [Line "The algorithm does not have any input parameter."].

(** The state [_get_Params] leaves when the text [q] has been fetched and
    [s0] is the state after the download. *)
Definition inferred (query_name q : string) (s0 : state) : state :=
  with_params_dict (<[query_name := fst (parse_params q)]> (params_dict s0))
    (written (diagnostic (snd (parse_params q))) s0).

(** The routines of the catalog that have no entry in
    [queryResult_type_dict]. *)
Definition untyped_names : list string :=
  ["tg_maximal_indep_set"; "tg_tri_count_fast"; "tg_cycle_detection_count";
   "tg_common_neighbors"; "tg_preferential_attachment"; "tg_same_community";
   "tg_total_neighbors"].

(** The feature types [queryResult_type_dict] uses. *)
Definition feature_types : list string := ["Float"; "INT"; "List<Double>"].

(** The command [_install_query_file] submits for a routine, given the text
    of its source after the replacements. *)
Definition install_command (query_name source : string) : string :=
  "USE GRAPH " +:+ graphname +:+ nl +:+ source +:+ nl +:+
  "install Query " +:+ query_name +:+ nl.

(** How a submitted command ends, by the last line of the answer. *)
Definition by_status {A} (resp : string) (a : A) : res A :=
  match last_line resp with
  | Ok status =>
      if Py.contains "Failed" status then Raise (ConnectionError status) else Ok a
  | Raise e => Raise e
  end.

(** The statements [_add_attribute] queues for edge types [names] that are
    asked one by one: one for each type whose metadata lack the attribute. *)
Definition edge_statements (schema_type attr_type a : string) (r : server)
    (names : list string) : list string :=
  flat_map
    (fun n =>
       match getEdgeType r (AStr n) with
       | Ok (Some md) =>
           if bool_decide (a ∉ map AttributeName (Attributes md))
           then [alter_statement schema_type (AStr n) a attr_type]
           else []
       | _ => []
       end) names.

(** The text of the schema change job for the queued statements. *)
Definition schema_job (schema_type suffix : string) (tasks : list string)
  : string :=
  let job_name := "add_" +:+ schema_type +:+ "_attr_" +:+ suffix in
  "USE GRAPH " +:+ graphname +:+ nl +:+
  "CREATE GLOBAL SCHEMA_CHANGE JOB " +:+ job_name +:+ " {" +:+ nl +:+
  Py.join tasks +:+
  "}" +:+ nl +:+ "RUN GLOBAL SCHEMA_CHANGE JOB " +:+ job_name.

(** The number of keys of a nested dictionary, over all its levels. *)
Fixpoint count_keys_node (v : node) : nat :=
  match v with
  | Leaf _ => O
  | Dict d =>
      (fix keys (items : list (string * node)) : nat :=
         match items with
         | [] => O
         | (_, v') :: r => S (count_keys_node v' + keys r)
         end) d
  end.

Definition count_keys (d : dict) : nat := count_keys_node (Dict d).

(** A location [_print_dict] can show: the empty string, or one with a part
    after its first [master]. *)
Definition printable (u : string) : bool :=
  String.eqb u "" || is_Ok (blob_url u).

(** What [_print_dict] shows for a location. *)
Definition shown (u : string) : string :=
  if String.eqb u "" then ""
  else match blob_url u with
       | Ok b => b
       | Raise _ => ""
       end.

(** A printer over the locations [leaves]: when all of them are printable
    it ends normally after [n] lines, among them one for each location;
    otherwise it ends in [IndexError]. *)
Definition prints_all (p : printer) (leaves : list string) (n : nat) : Prop :=
  (forallb printable leaves = true ->
   snd p = Ok tt ∧ length (fst p) = n ∧
   ∀ u, u ∈ leaves -> ∃ indent, Py.spaces indent +:+ shown u +:+ ". " ∈ fst p) ∧
  (forallb printable leaves = false -> snd p = Raise IndexError).

(** Every character of a string passes a test. *)
Fixpoint all_chars (f : ascii -> bool) (s : string) : bool :=
  match s with
  | EmptyString => true
  | String c r => f c && all_chars f r
  end.

(** A string without the character [c]. *)
Definition free_of (c : ascii) (s : string) : bool :=
  all_chars (fun x => negb (Ascii.eqb x c)) s.

(** A word of a declaration: not empty, no white space, no [=]. *)
Definition word (w : string) : Prop :=
  w ≠ "" ∧
  all_chars (fun c => negb (Py.is_space c) && negb (Ascii.eqb c "="%char)) w = true.

(** White space only. *)
Definition blank (s : string) : bool := all_chars Py.is_space s.

(** What the loop body of [_get_Params] stores for a declaration
    [type name = literal], by the type tag in lower case, the parameter name
    and the literal; [float] and [int] receive the text after the equals
    sign, which starts with the blank. *)
Definition declared (tag name literal : string) : parser :=
  if String.eqb tag "float" || String.eqb tag "double"
  then assign (Some name) (VFloat <$> float_of_str (" " +:+ literal))
  else if String.eqb tag "bool" then assign (Some name) (Some (VBool true))
  else if String.eqb tag "int" then assign (Some name) (VInt <$> Py.int literal)
  else if String.eqb tag "string"
  then assign (Some name) (Some (VStr (Py.slice literal 1 (-2))))
  else skip.

(** ** Properties *)

(** *** The state *)

Lemma called_nil (s : state) : called [] s = s.
Proof. destruct s; unfold called; simpl. by rewrite app_nil_r. Qed.

Lemma called_app (a b : list call) (s : state) :
  called b (called a s) = called (a ++ b) s.
Proof. unfold called; simpl. by rewrite app_assoc. Qed.

Lemma written_nil (s : state) : written [] s = s.
Proof. destruct s; unfold written; simpl. by rewrite app_nil_r. Qed.

(** *** Resolver *)

Lemma last_cons_default {A} (x : A) (l : list A) (d : A) :
  List.last (x :: l) d = List.last l x.
Proof.
  revert x d. induction l as [|y l IH]; intros x d; [done|].
  change (List.last (x :: y :: l) d) with (List.last (y :: l) d).
  by rewrite !IH.
Qed.

Lemma _get_query_loop_spec (query_name : string) (algo_list : list string)
    (query : string) (s : state) :
  _get_query_loop query_name algo_list query s
  = (Ok (List.last (map requests_get_text (matching query_name algo_list)) query),
     called (map HttpGet (matching query_name algo_list)) s).
Proof.
  revert query s. induction algo_list as [|u l IH]; intros query s; simpl.
  - by rewrite called_nil.
  - unfold matching in *. simpl.
    destruct (String.eqb query_name (leaf_name u)); [|apply IH].
    unfold bind, requests_get. rewrite IH, called_app. simpl map.
    by rewrite last_cons_default.
Qed.

Lemma listAlgorithms_spec (category : option string) (s : state) :
  listAlgorithms category s
  = (snd (listing (algo_dict s) category),
     written (map Line (fst (listing (algo_dict s) category))) s).
Proof. reflexivity. Qed.

Lemma _get_query_found (query_name : string) (s : state) :
  resolved query_name (algo_dict s) ≠ "" ->
  _get_query query_name s
  = (Ok (resolved query_name (algo_dict s)),
     called (map HttpGet (matching query_name (_get_values (algo_dict s)))) s).
Proof.
  intros Hne. unfold _get_query, bind, gets.
  rewrite _get_query_loop_spec. fold (resolved query_name (algo_dict s)).
  destruct (String.eqb_spec (resolved query_name (algo_dict s)) ""); [done|].
  reflexivity.
Qed.

Lemma _get_query_missing (query_name : string) (s : state) :
  resolved query_name (algo_dict s) = "" ->
  _get_query query_name s
  = (listing_then_raise (algo_dict s) not_included,
     written (map Line (fst (listing (algo_dict s) None)))
       (called (map HttpGet (matching query_name (_get_values (algo_dict s)))) s)).
Proof.
  intros He. unfold _get_query, bind, gets.
  rewrite _get_query_loop_spec. fold (resolved query_name (algo_dict s)).
  rewrite He. unfold listing_then_raise, listAlgorithms, bind, gets, run_printer.
  simpl. destruct (snd (listing (algo_dict s) None)); reflexivity.
Qed.

Lemma listing_then_raise_not_Ok {A} (d : dict) (msg : string) (a : A) :
  listing_then_raise d msg ≠ Ok a.
Proof. unfold listing_then_raise. by destruct (snd (listing d None)). Qed.

Lemma _get_query_Ok (query_name : string) (s s' : state) (q : string) :
  _get_query query_name s = (Ok q, s') ->
  q = resolved query_name (algo_dict s) ∧ q ≠ "" ∧
  s' = called (map HttpGet (matching query_name (_get_values (algo_dict s)))) s.
Proof.
  intros H.
  destruct (String.eqb_spec (resolved query_name (algo_dict s)) "") as [He|Hne].
  - rewrite (_get_query_missing _ _ He) in H. injection H as H _.
    by apply listing_then_raise_not_Ok in H.
  - rewrite (_get_query_found _ _ Hne) in H. injection H as <- <-. done.
Qed.

Lemma _get_query_url_loop_spec (query_name : string) (algo_list : list string) :
  _get_query_url_loop query_name algo_list
  = match matching query_name algo_list with
    | [] => None
    | u :: _ => Some (blob_url u)
    end.
Proof.
  induction algo_list as [|u l IH]; [done|].
  unfold matching in *. simpl.
  by destruct (String.eqb query_name (leaf_name u)).
Qed.

Lemma _get_query_url_found (query_name : string) (s : state) (u : string)
    (rest : list string) :
  matching query_name (_get_values (algo_dict s)) = u :: rest ->
  _get_query_url query_name s = (blob_url u, s).
Proof.
  intros Hm. unfold _get_query_url, bind, gets.
  by rewrite _get_query_url_loop_spec, Hm.
Qed.

Lemma _get_query_url_missing (query_name : string) (s : state) :
  matching query_name (_get_values (algo_dict s)) = [] ->
  _get_query_url query_name s
  = (listing_then_raise (algo_dict s) not_included,
     written (map Line (fst (listing (algo_dict s) None))) s).
Proof.
  intros Hm. unfold _get_query_url, bind, gets.
  rewrite _get_query_url_loop_spec, Hm.
  unfold listing_then_raise, listAlgorithms, bind, gets, run_printer.
  simpl. destruct (snd (listing (algo_dict s) None)); reflexivity.
Qed.

Lemma matching_nil (query_name : string) (algo_list : list string) :
  query_name ∉ map leaf_name algo_list -> matching query_name algo_list = [].
Proof.
  induction algo_list as [|u l IH]; [done|].
  intros Hn. unfold matching in *. simpl.
  destruct (String.eqb_spec query_name (leaf_name u)) as [->|_].
  - exfalso. apply Hn. simpl. left.
  - apply IH. intros Hin. apply Hn. simpl. by right.
Qed.

Lemma matching_elem (query_name u : string) (algo_list : list string) :
  u ∈ matching query_name algo_list ->
  u ∈ algo_list ∧ leaf_name u = query_name.
Proof.
  unfold matching. rewrite !list_elem_of_In, filter_In.
  intros [Hin He]. split; [done|].
  by destruct (String.eqb_spec query_name (leaf_name u)).
Qed.

(** The shipped catalog prints without an exception, every location has a
    browsable form, and the listing shows each of them. *)
Lemma shipped_listing_ends : snd (listing algo_dict0 None) = Ok tt.
Proof. by_evaluation. Qed.

Lemma shipped_locations_listed :
  forallb (listed (fst (listing algo_dict0 None))) (_get_values algo_dict0) = true.
Proof. by_evaluation. Qed.

Lemma shipped_locations_browsable (u : string) :
  u ∈ _get_values algo_dict0 -> ∃ b, blob_url u = Ok b.
Proof.
  assert (H : forallb (fun u => is_Ok (blob_url u)) (_get_values algo_dict0) = true)
    by by_evaluation.
  rewrite forallb_forall in H. intros Hin%list_elem_of_In.
  specialize (H u Hin). destruct (blob_url u) as [b|]; [by exists b|done].
Qed.

(** C10: a routine name that is the file name of no location of the catalog
    makes both [_get_query] (resolve) and [_get_query_url]
    (referenceLocation) raise the [ValueError] that reports an unknown name;
    when it is raised the whole catalog has been printed, each location on a
    line of its own, and nothing else has happened. *)
Theorem unknown_name_is_NotFound (query_name : string) (s : state) :
  algo_dict s = algo_dict0 ->
  query_name ∉ catalog_names algo_dict0 ->
  let out := written (map Line (fst (listing algo_dict0 None))) s in
  _get_query query_name s = (Raise (ValueError not_included), out) ∧
  _get_query_url query_name s = (Raise (ValueError not_included), out) ∧
  hd_error (fst (listing algo_dict0 None)) = Some (listing_header None) ∧
  ∀ u, u ∈ _get_values algo_dict0 ->
       listed (fst (listing algo_dict0 None)) u = true.
Proof.
  intros Hd Hn out.
  pose proof (matching_nil _ _ Hn) as Hm.
  assert (Hr : resolved query_name (algo_dict s) = "")
    by (unfold resolved; rewrite Hd, Hm; reflexivity).
  split; [|split; [|split]].
  - rewrite (_get_query_missing _ _ Hr), Hd, Hm. simpl map at 2.
    rewrite called_nil. unfold listing_then_raise.
    by rewrite shipped_listing_ends.
  - rewrite _get_query_url_missing by (by rewrite Hd).
    rewrite Hd. unfold listing_then_raise.
    by rewrite shipped_listing_ends.
  - reflexivity.
  - intros u Hin%list_elem_of_In.
    pose proof shipped_locations_listed as H.
    rewrite forallb_forall in H. by apply H.
Qed.

(** *** Parameter inferencer *)

Lemma _get_Params_found (query_name q : string) (s s0 : state) :
  _get_query query_name s = (Ok q, s0) ->
  _get_Params query_name s = (Ok (fst (parse_params q)), inferred query_name q s0).
Proof.
  intros H. destruct (_get_query_Ok _ _ _ _ H) as (_ & Hne & _).
  unfold _get_Params, bind. rewrite H.
  destruct (String.eqb_spec q "") as [|_]; [done|].
  unfold inferred, diagnostic, ret. destruct (parse_params q) as [d [|]]; simpl.
  - by rewrite written_nil.
  - reflexivity.
Qed.

Lemma _get_Params_raises (query_name : string) (e : pyexn) (s s0 : state) :
  _get_query query_name s = (Raise e, s0) ->
  _get_Params query_name s = (Raise e, s0).
Proof. intros H. unfold _get_Params, bind. by rewrite H. Qed.

Lemma _get_Params_Ok (query_name : string) (s s1 : state)
    (params : gmap string (pyvalue pyfloat)) :
  _get_Params query_name s = (Ok params, s1) ->
  let q := resolved query_name (algo_dict s) in
  let s0 := called (map HttpGet (matching query_name (_get_values (algo_dict s)))) s in
  q ≠ "" ∧ params = fst (parse_params q) ∧ s1 = inferred query_name q s0.
Proof.
  intros H q s0.
  destruct (_get_query query_name s) as [[q'|e] s'] eqn:Hq.
  - destruct (_get_query_Ok _ _ _ _ Hq) as (-> & Hne & ->).
    rewrite (_get_Params_found _ _ _ _ Hq) in H. injection H as <- <-. done.
  - rewrite (_get_Params_raises _ _ _ _ Hq) in H. discriminate.
Qed.

Lemma resolved_matching (query_name : string) (d : dict) :
  resolved query_name d ≠ "" ->
  ∃ u rest, matching query_name (_get_values d) = u :: rest.
Proof.
  unfold resolved. destruct (matching query_name (_get_values d)) as [|u rest].
  - done.
  - intros _. by exists u, rest.
Qed.

(** *** Runner *)

Lemma truthy_lookup (params : gmap string (pyvalue pyfloat)) (k : string)
    (v : pyvalue pyfloat) :
  params !! k = Some v -> truthy params = true.
Proof.
  intros H. unfold truthy.
  destruct (Nat.eqb_spec (size params) 0) as [He|]; [|done].
  exfalso. by apply (map_size_ne_0_lookup_2 params k).
Qed.

Lemma None_in_values_lookup (params : gmap string (pyvalue pyfloat)) :
  None_in_values params = true ↔ ∃ k, params !! k = Some VNone.
Proof.
  unfold None_in_values. rewrite existsb_exists. split.
  - intros (v & Hin & Hv). destruct v; try discriminate.
    apply list_elem_of_In, list_elem_of_fmap in Hin as ([k v] & Hv' & Hin).
    simpl in Hv'. subst v. exists k. by apply elem_of_map_to_list.
  - intros [k Hk]. exists VNone. split; [|done].
    apply list_elem_of_In, list_elem_of_fmap. exists (k, VNone).
    split; [done|]. by apply elem_of_map_to_list.
Qed.

Lemma inferred_calls (query_name q : string) (s0 : state) :
  calls (inferred query_name q s0) = calls s0 ∧
  remote (inferred query_name q s0) = remote s0 ∧
  algo_dict (inferred query_name q s0) = algo_dict s0.
Proof. done. Qed.

(** C5: when the inferred mapping of a routine holds a parameter without a
    default, [runAlgorithm] without explicit parameters raises the
    [ValueError] whose message ends in the browsable location of the routine;
    up to then the only calls that left the process are the downloads of the
    source, and the server is as it was. *)
Theorem missing_default_is_ValidationError (query_name schema_type : string)
    (feat_name : option string) (schema_name : option (list string))
    (timeout : Z) (sizeLimit : option Z) (s s1 : state)
    (params : gmap string (pyvalue pyfloat)) (k : string) :
  algo_dict s = algo_dict0 ->
  _get_Params query_name s = (Ok params, s1) ->
  params !! k = Some VNone ->
  ∃ u b s2,
    u ∈ _get_values algo_dict0 ∧ leaf_name u = query_name ∧ blob_url u = Ok b ∧
    runAlgorithm query_name None schema_type feat_name schema_name timeout
      sizeLimit s
    = (Raise (ValueError
                ("Query parameters which are not initialized by default need to be initialized, visit "
                 +:+ b +:+ ".")), s2) ∧
    remote s2 = remote s ∧
    calls s2 = calls s ++ map HttpGet (matching query_name (_get_values algo_dict0)) ∧
    List.filter is_run (calls s2) = List.filter is_run (calls s).
Proof.
  intros Hd Hp Hk.
  destruct (_get_Params_Ok _ _ _ _ Hp) as (Hne & Hparams & Hs1).
  destruct (resolved_matching _ _ Hne) as (u & rest & Hm).
  assert (Hu : u ∈ _get_values algo_dict0 ∧ leaf_name u = query_name).
  { rewrite <- Hd. apply matching_elem. rewrite Hm. left. }
  destruct (shipped_locations_browsable u (proj1 Hu)) as [b Hb].
  exists u, b, (written [DefaultParams params] s1).
  split; [apply Hu|]. split; [apply Hu|]. split; [done|].
  assert (Hurl : _get_query_url query_name (written [DefaultParams params] s1)
                 = (Ok b, written [DefaultParams params] s1)).
  { rewrite <- Hb. apply (_get_query_url_found _ _ u rest).
    rewrite Hs1. exact Hm. }
  split.
  - unfold runAlgorithm, bind. rewrite Hp.
    rewrite (truthy_lookup _ _ _ Hk).
    rewrite (proj2 (None_in_values_lookup params) (ex_intro _ k Hk)).
    by rewrite Hurl.
  - rewrite Hs1, <- Hd. simpl. split; [done|]. split; [done|].
    rewrite List.filter_app.
    assert (Hnone : ∀ l, List.filter is_run (map HttpGet l) = []).
    { intros l. induction l as [|x l IH]; [done|]. simpl. exact IH. }
    by rewrite Hnone, app_nil_r.
Qed.

(** With a non-empty mapping in which every parameter has a default,
    [runAlgorithm] without explicit parameters ends after printing the
    mapping: it returns [None] and [runInstalledQuery] is not called. *)
Lemma complete_defaults_are_not_run (query_name schema_type : string)
    (feat_name : option string) (schema_name : option (list string))
    (timeout : Z) (sizeLimit : option Z) (s s1 : state)
    (params : gmap string (pyvalue pyfloat)) :
  _get_Params query_name s = (Ok params, s1) ->
  truthy params = true ->
  None_in_values params = false ->
  runAlgorithm query_name None schema_type feat_name schema_name timeout
    sizeLimit s
  = (Ok None, written [DefaultParams params] s1).
Proof.
  intros Hp Ht Hn. unfold runAlgorithm, bind. by rewrite Hp, Ht, Hn.
Qed.

(** C9, as the code has it: the mapping [_get_Params] returns is stored in
    [params_dict] under the routine name, and a later call for the same name
    downloads the source again, parses it again and stores the same mapping
    once more; [params_dict] is never read. *)
Theorem inferred_defaults_are_stored_not_reused (query_name : string)
    (s s1 : state) (params : gmap string (pyvalue pyfloat)) :
  _get_Params query_name s = (Ok params, s1) ->
  params_dict s1 !! query_name = Some params ∧
  ∃ u rest s2,
    matching query_name (_get_values (algo_dict s)) = u :: rest ∧
    _get_Params query_name s1 = (Ok params, s2) ∧
    calls s2 = calls s1 ++ map HttpGet (u :: rest) ∧
    params_dict s2 = params_dict s1.
Proof.
  intros Hp. destruct (_get_Params_Ok _ _ _ _ Hp) as (Hne & Hparams & Hs1).
  split.
  - rewrite Hs1. simpl. by rewrite lookup_insert_eq, Hparams.
  - destruct (resolved_matching _ _ Hne) as (u & rest & Hm).
    assert (Hd : algo_dict s1 = algo_dict s) by (by rewrite Hs1).
    assert (Hq : _get_query query_name s1
                 = (Ok (resolved query_name (algo_dict s)),
                    called (map HttpGet (u :: rest)) s1)).
    { rewrite <- Hm, <- Hd. apply _get_query_found. by rewrite Hd. }
    exists u, rest. eexists. split; [done|]. split; [|split].
    + rewrite (_get_Params_found _ _ _ _ Hq). by rewrite Hparams.
    + reflexivity.
    + simpl. rewrite Hs1. simpl. by rewrite insert_insert_eq.
Qed.

(** C8, as the code has it: when several locations of the catalog carry the
    routine name, [_get_query] downloads each of them in traversal order and
    returns the text of the last one, while [_get_query_url] answers from the
    first one; the two agree when the name occurs once. *)
Theorem resolve_takes_last_reference_takes_first (query_name : string)
    (s : state) (first : string) (rest : list string) :
  matching query_name (_get_values (algo_dict s)) = first :: rest ->
  requests_get_text (List.last rest first) ≠ "" ->
  _get_query query_name s
  = (Ok (requests_get_text (List.last rest first)),
     called (map HttpGet (first :: rest)) s) ∧
  _get_query_url query_name s = (blob_url first, s).
Proof.
  intros Hm Hne.
  assert (Hr : resolved query_name (algo_dict s)
               = requests_get_text (List.last rest first)).
  { unfold resolved. rewrite Hm. simpl map. rewrite last_cons_default.
    clear Hm Hne. revert first. induction rest as [|x l IH]; intros first; [done|].
    simpl map. rewrite !last_cons_default. apply IH. }
  split.
  - rewrite <- Hr, <- Hm. apply _get_query_found. by rewrite Hr.
  - by apply (_get_query_url_found _ _ first rest).
Qed.

(** *** The shipped tables *)

Lemma shipped_names_occur_once (query_name : string) :
  query_name ∈ catalog_names algo_dict0 ->
  ∃ u, matching query_name (_get_values algo_dict0) = [u].
Proof.
  assert (H : forallb
                (fun n => match matching n (_get_values algo_dict0) with
                          | [_] => true
                          | _ => false
                          end) (catalog_names algo_dict0) = true)
    by by_evaluation.
  rewrite forallb_forall in H. intros Hin%list_elem_of_In.
  specialize (H _ Hin).
  destruct (matching query_name (_get_values algo_dict0)) as [|u [|]];
    try discriminate.
  by exists u.
Qed.

Lemma shipped_types (query_name : string) :
  query_name ∈ catalog_names algo_dict0 ->
  (queryResult_type_dict0 !! query_name = None ↔ query_name ∈ untyped_names) ∧
  ∀ ty, queryResult_type_dict0 !! query_name = Some ty -> ty ∈ feature_types.
Proof.
  assert (H : forallb
                (fun n =>
                   match queryResult_type_dict0 !! n with
                   | None => bool_decide (n ∈ untyped_names)
                   | Some ty =>
                       bool_decide (n ∉ untyped_names)
                       && bool_decide (ty ∈ feature_types)
                   end) (catalog_names algo_dict0) = true)
    by by_evaluation.
  rewrite forallb_forall in H. intros Hin%list_elem_of_In.
  specialize (H _ Hin).
  destruct (queryResult_type_dict0 !! query_name) as [ty|].
  - apply andb_true_iff in H as [H1%bool_decide_eq_true H2%bool_decide_eq_true].
    split; [split; [done|by intros ?]|]. by intros ? [= <-].
  - apply bool_decide_eq_true in H. split; [done|]. by intros ? [=].
Qed.

(** C3, as the code has it: a routine name of the catalog belongs to one
    location; [_get_query] returns the text found there when that text is not
    empty, and raises the unknown-name [ValueError] when it is; 17 of the 24
    names have an entry in [queryResult_type_dict], each one of [Float], [INT]
    and [List<Double>], and the seven names of [untyped_names] have none. *)
Theorem catalog_names_resolve (query_name : string) :
  query_name ∈ catalog_names algo_dict0 ->
  (∃ u,
     matching query_name (_get_values algo_dict0) = [u] ∧
     ∀ s, algo_dict s = algo_dict0 ->
          (requests_get_text u ≠ "" ->
           _get_query query_name s
           = (Ok (requests_get_text u), called [HttpGet u] s)) ∧
          (requests_get_text u = "" ->
           fst (_get_query query_name s) = Raise (ValueError not_included)) ∧
          ∀ q s', _get_query query_name s = (Ok q, s') -> q ≠ "") ∧
  (queryResult_type_dict0 !! query_name = None ↔ query_name ∈ untyped_names) ∧
  (∀ ty, queryResult_type_dict0 !! query_name = Some ty -> ty ∈ feature_types) ∧
  length (catalog_names algo_dict0) = 24%nat ∧ size queryResult_type_dict0 = 17%nat.
Proof.
  intros Hin. split; [|split; [apply (shipped_types _ Hin)|split;
    [apply (shipped_types _ Hin)|split; by_evaluation]]].
  destruct (shipped_names_occur_once _ Hin) as [u Hu].
  exists u. split; [done|]. intros s Hd.
  assert (Hr : resolved query_name (algo_dict s) = requests_get_text u)
    by (unfold resolved; rewrite Hd, Hu; reflexivity).
  split; [|split].
  - intros Hne. rewrite <- Hr.
    change [HttpGet u] with (map HttpGet [u]). rewrite <- Hu, <- Hd.
    apply _get_query_found. by rewrite Hr.
  - intros He. rewrite _get_query_missing by (by rewrite Hr).
    simpl. rewrite Hd. unfold listing_then_raise.
    by rewrite shipped_listing_ends.
  - intros q s' Hq. by destruct (_get_query_Ok _ _ _ _ Hq) as (_ & ? & _).
Qed.

(** *** Installer *)

Lemma _is_query_installed_spec (query_name : string) (s : state) :
  _is_query_installed query_name s
  = (Ok (bool_decide (endpoint query_name ∈ getInstalledQueries (remote s))),
     called [GetInstalledQueries] s).
Proof. reflexivity. Qed.

(** A routine the listing of the server already shows is not installed
    again: the name is returned after the one request for the listing. *)
Lemma _install_query_file_installed (query_name : string)
    (replace : option (list (string * string))) (s : state) :
  endpoint (Py.strip (final_name query_name replace))
    ∈ getInstalledQueries (remote s) ->
  _install_query_file query_name replace s
  = (Ok (final_name query_name replace), called [GetInstalledQueries] s).
Proof.
  intros Hin. unfold _install_query_file, bind.
  rewrite _is_query_installed_spec.
  by rewrite (bool_decide_eq_true_2 _ Hin).
Qed.

Lemma filter_is_gsql_http (l : list string) :
  List.filter is_gsql (map HttpGet l) = [].
Proof. induction l as [|x l IH]; [done|]. simpl. exact IH. Qed.

(** A routine that is not installed yet: when [_install_query_file] returns,
    it has asked for the listing, downloaded the source and submitted one
    command. *)
Lemma _install_query_file_fresh (query_name : string)
    (replace : option (list (string * string))) (s s1 : state) (name : string) :
  endpoint (Py.strip (final_name query_name replace))
    ∉ getInstalledQueries (remote s) ->
  _install_query_file query_name replace s = (Ok name, s1) ->
  name = final_name query_name replace ∧
  ∃ command,
    calls s1
    = calls s
      ++ GetInstalledQueries
         :: map HttpGet (matching name (_get_values (algo_dict s)))
      ++ [Gsql command].
Proof.
  intros Hnin. unfold _install_query_file, bind.
  rewrite _is_query_installed_spec.
  rewrite (bool_decide_eq_false_2 _ Hnin).
  destruct (_get_query (final_name query_name replace)
              (called [GetInstalledQueries] s)) as [[q|e] s0] eqn:Hq;
    [|discriminate].
  destruct (_get_query_Ok _ _ _ _ Hq) as (_ & _ & Hs0).
  unfold print, conn_gsql. simpl remote.
  destruct (gsql _ _) as [resp r] eqn:Hg.
  unfold lift. destruct (last_line resp) as [status|]; [|discriminate].
  destruct (Py.contains "Failed" status); [discriminate|].
  unfold ret. intros [= <- <-]. split; [done|].
  eexists. simpl. rewrite Hs0. simpl. rewrite <- !app_assoc. reflexivity.
Qed.

(** C2: [_install_query_file] called twice in a row.  The routine is not in
    the listing at first, the first call returns, and the server then lists
    the routine.  Then the two calls submit exactly one command between
    them: the second call returns the same name after asking for the
    listing, without a download and without a command. *)
Theorem install_twice_one_round_trip (query_name : string)
    (replace : option (list (string * string))) (s s1 : state) (name : string) :
  endpoint (Py.strip (final_name query_name replace))
    ∉ getInstalledQueries (remote s) ->
  _install_query_file query_name replace s = (Ok name, s1) ->
  endpoint (Py.strip name) ∈ getInstalledQueries (remote s1) ->
  ∃ command,
    List.filter is_gsql (calls s1) = List.filter is_gsql (calls s) ++ [Gsql command] ∧
    _install_query_file query_name replace s1
    = (Ok name, called [GetInstalledQueries] s1) ∧
    List.filter is_gsql (calls (called [GetInstalledQueries] s1))
    = List.filter is_gsql (calls s) ++ [Gsql command] ∧
    List.filter is_http (calls (called [GetInstalledQueries] s1))
    = List.filter is_http (calls s1).
Proof.
  intros Hnin H1 Hin.
  destruct (_install_query_file_fresh _ _ _ _ _ Hnin H1) as (-> & command & Hc).
  exists command.
  assert (Hg : List.filter is_gsql (calls s1)
               = List.filter is_gsql (calls s) ++ [Gsql command]).
  { rewrite Hc, List.filter_app. simpl.
    by rewrite List.filter_app, filter_is_gsql_http. }
  split; [done|]. split; [by apply _install_query_file_installed|].
  simpl. rewrite !List.filter_app. simpl. rewrite !app_nil_r. done.
Qed.

(** *** Schema mutator *)

Lemma getEdgeType_list (r : server) (names : list string) :
  getEdgeType r (AList names) = Raise TypeError.
Proof.
  unfold getEdgeType.
  assert (H : List.find (name_is (AList names)) (getSchema_EdgeTypes r) = None).
  { induction (getSchema_EdgeTypes r) as [|et l IH]; [done|]. exact IH. }
  by rewrite H.
Qed.

(** A list of edge type names handed to [_add_attribute] becomes the one
    item the loop runs over, and asking for the metadata of that item
    raises: no statement is queued and no job is submitted. *)
Lemma _add_attribute_edge_list (attr_type : string) (attr_name : option string)
    (names : list string) (s : state) :
  _add_attribute "EDGE" attr_type attr_name (Some names) s
  = (Raise TypeError,
     called [GetEdgeTypes; GetEdgeType (AList names)]
       (with_result_attr attr_name s)).
Proof.
  unfold _add_attribute, _add_attribute_target, bind.
  change (String.eqb (Py.upper "EDGE") "VERTEX") with false.
  change (String.eqb (Py.upper "EDGE") "EDGE") with true.
  cbv iota. unfold conn_getEdgeTypes, ret. cbn [snd fst _add_attribute_loop].
  unfold bind, conn_getEdgeType. by rewrite getEdgeType_list, called_app.
Qed.

Lemma _add_attribute_loop_present (v_type : bool) (schema_type attr_type : string)
    (attr_name : option string) (target : list pyarg) (tasks : list string)
    (s : state) :
  (∀ t, t ∈ target ->
        ∃ md, fetch_type v_type (remote s) t = Ok (Some md) ∧
              ∀ a, attr_name = Some a -> a ∈ map AttributeName (Attributes md)) ->
  _add_attribute_loop v_type schema_type attr_type attr_name target tasks s
  = (Ok tasks,
     called (map (if v_type then GetVertexType else GetEdgeType) target) s).
Proof.
  revert s. induction target as [|t l IH]; intros s H; simpl.
  - by rewrite called_nil.
  - destruct (H t) as (md & Hf & Hl); [left|].
    unfold bind, fetch_type in *.
    assert (Hm : (if v_type then conn_getVertexType t else conn_getEdgeType t) s
                 = (Ok (Some md),
                    called [(if v_type then GetVertexType else GetEdgeType) t] s)).
    { destruct v_type; unfold conn_getVertexType, conn_getEdgeType; by rewrite Hf. }
    rewrite Hm. simpl.
    assert (Hq : queue schema_type attr_type attr_name t
                   (map AttributeName (Attributes md)) tasks = tasks).
    { unfold queue. destruct attr_name as [a|]; [|done].
      rewrite bool_decide_eq_false_2; [done|].
      intros Hn. apply Hn. by apply Hl. }
    rewrite Hq, IH.
    + by rewrite called_app.
    + intros t' Ht'. apply H. by right.
Qed.

(** With no list of names, the loop runs over every type of the schema; when
    each of them has the attribute, [_add_attribute] reports that and submits
    nothing. *)
Lemma _add_attribute_present_everywhere (v_type : bool)
    (schema_type attr_type : string) (attr_name : option string) (s : state) :
  Py.upper schema_type = (if v_type then "VERTEX" else "EDGE") ->
  (∀ t, t ∈ (if v_type then getVertexTypes (remote s) else getEdgeTypes (remote s)) ->
        ∃ md, fetch_type v_type (remote s) (AStr t) = Ok (Some md) ∧
              ∀ a, attr_name = Some a -> a ∈ map AttributeName (Attributes md)) ->
  ∃ s', _add_attribute schema_type attr_type attr_name None s
        = (Ok "Attribute already exists", s') ∧
        remote s' = remote s ∧
        List.filter is_gsql (calls s') = List.filter is_gsql (calls s).
Proof.
  intros Hu H. unfold _add_attribute, _add_attribute_target, bind. simpl.
  rewrite Hu.
  assert (Hf : ∀ l, List.filter is_gsql
                      (map (if v_type then GetVertexType else GetEdgeType) l) = []).
  { intros l. induction l as [|x l IH]; [done|]. by destruct v_type. }
  destruct v_type; simpl.
  - rewrite _add_attribute_loop_present.
    + eexists. split; [reflexivity|]. simpl. split; [done|].
      by rewrite !List.filter_app, (Hf (map AStr _)), !app_nil_r.
    + intros t [n [-> Hn]]%list_elem_of_fmap. by apply H.
  - rewrite _add_attribute_loop_present.
    + eexists. split; [reflexivity|]. simpl. split; [done|].
      by rewrite !List.filter_app, (Hf (map AStr _)), !app_nil_r.
    + intros t [n [-> Hn]]%list_elem_of_fmap. by apply H.
Qed.


(** *** More on the resolver *)

(** Whatever [_get_query] answers, all it does outside the process is to
    download the locations that carry the name, in traversal order; the
    server and the fields of the object stay as they were, and nothing is
    printed unless the call raises. *)
Theorem resolve_only_downloads (query_name : string) (s : state) :
  let s' := snd (_get_query query_name s) in
  calls s' = calls s ++ map HttpGet (matching query_name (_get_values (algo_dict s))) ∧
  remote s' = remote s ∧
  params_dict s' = params_dict s ∧
  query s' = query s ∧
  algo_dict s' = algo_dict s ∧
  result_attr s' = result_attr s ∧
  queryResult_type_dict s' = queryResult_type_dict s ∧
  (is_Ok (fst (_get_query query_name s)) = true -> stdout s' = stdout s).
Proof.
  destruct (String.eqb_spec (resolved query_name (algo_dict s)) "") as [He|Hne].
  - rewrite (_get_query_missing _ _ He). simpl.
    repeat split. intros H. exfalso.
    unfold listing_then_raise in H.
    by destruct (snd (listing (algo_dict s) None)).
  - rewrite (_get_query_found _ _ Hne). simpl. by repeat split.
Qed.

(** *** The edge accessors *)

Lemma find_name_is_Some (n : string) (l : list type_meta) :
  n ∈ map Name l ->
  ∃ et, List.find (name_is (AStr n)) l = Some et ∧ Name et = n ∧ et ∈ l.
Proof.
  induction l as [|et l IH]; simpl.
  - intros H. by apply elem_of_nil in H.
  - intros H. destruct (String.eqb_spec (Name et) n) as [He|Hne].
    + exists et. split; [done|]. split; [done|]. left.
    + apply elem_of_cons in H as [H|H]; [by symmetry in H|].
      destruct (IH H) as (et' & Hf & Hn & Hin).
      exists et'. split; [done|]. split; [done|]. by right.
Qed.

Lemma find_name_is_None (n : string) (l : list type_meta) :
  n ∉ map Name l -> List.find (name_is (AStr n)) l = None.
Proof.
  induction l as [|et l IH]; simpl; [done|].
  intros H. destruct (String.eqb_spec (Name et) n) as [He|Hne].
  - exfalso. apply H. rewrite He. left.
  - apply IH. intros Hin. apply H. by right.
Qed.

(** [getEdgeType] answers for exactly the names [getEdgeTypes] lists: for a
    listed name it returns the metadata of a type of the schema with that
    name, for any other string the empty dictionary; for a string it never
    raises. *)
Theorem getEdgeType_of_listed_name (r : server) (n : string) :
  (n ∈ getEdgeTypes r ->
   ∃ et, getEdgeType r (AStr n) = Ok (Some et) ∧ Name et = n ∧
         et ∈ getSchema_EdgeTypes r) ∧
  (n ∉ getEdgeTypes r -> getEdgeType r (AStr n) = Ok None).
Proof.
  unfold getEdgeTypes, getEdgeType. split.
  - intros H. destruct (find_name_is_Some _ _ H) as (et & Hf & Hn & Hin).
    exists et. by rewrite Hf.
  - intros H. by rewrite (find_name_is_None _ _ H).
Qed.

(** *** More on the installer *)

Lemma resolved_last (query_name : string) (d : dict) (u : string)
    (rest : list string) :
  matching query_name (_get_values d) = u :: rest ->
  resolved query_name d = requests_get_text (List.last rest u).
Proof.
  intros Hm. unfold resolved. rewrite Hm. simpl map. rewrite last_cons_default.
  clear Hm. revert u. induction rest as [|x l IH]; intros u; [done|].
  simpl map. rewrite !last_cons_default. apply IH.
Qed.

Lemma _get_query_last (query_name : string) (s : state) (u : string)
    (rest : list string) :
  matching query_name (_get_values (algo_dict s)) = u :: rest ->
  requests_get_text (List.last rest u) ≠ "" ->
  _get_query query_name s
  = (Ok (requests_get_text (List.last rest u)),
     called (map HttpGet (u :: rest)) s).
Proof.
  intros Hm Hne. rewrite <- (resolved_last _ _ _ _ Hm), <- Hm.
  apply _get_query_found. by rewrite (resolved_last _ _ _ _ Hm).
Qed.

Lemma _get_query_unknown (query_name : string) (s : state) :
  algo_dict s = algo_dict0 ->
  query_name ∉ catalog_names algo_dict0 ->
  _get_query query_name s
  = (Raise (ValueError not_included),
     written (map Line (fst (listing algo_dict0 None))) s).
Proof.
  intros Hd Hn. pose proof (matching_nil _ _ Hn) as Hm.
  assert (Hr : resolved query_name (algo_dict s) = "")
    by (unfold resolved; rewrite Hd, Hm; reflexivity).
  rewrite (_get_query_missing _ _ Hr), Hd, Hm. simpl map at 2.
  rewrite called_nil. unfold listing_then_raise.
  by rewrite shipped_listing_ends.
Qed.


(** A routine that is neither in the listing nor in the catalog is not
    installed: after the request for the listing the catalog is printed and
    the unknown-name [ValueError] is raised; nothing is downloaded and no
    command is submitted. *)
Theorem install_of_unknown_name_submits_nothing (query_name : string)
    (replace : option (list (string * string))) (s : state) :
  algo_dict s = algo_dict0 ->
  endpoint (Py.strip (final_name query_name replace))
    ∉ getInstalledQueries (remote s) ->
  final_name query_name replace ∉ catalog_names algo_dict0 ->
  _install_query_file query_name replace s
  = (Raise (ValueError not_included),
     written (map Line (fst (listing algo_dict0 None)))
       (called [GetInstalledQueries] s)).
Proof.
  intros Hd Hnin Hn. unfold _install_query_file, bind.
  rewrite _is_query_installed_spec, (bool_decide_eq_false_2 _ Hnin).
  by rewrite (_get_query_unknown (final_name query_name replace)
                (called [GetInstalledQueries] s) Hd Hn).
Qed.


(** *** More on the schema mutator *)

(** A [schema_type] that is neither [VERTEX] nor [EDGE] in any spelling of
    upper and lower case raises before anything is asked of the server; the
    attribute name has been noted in [self.result_attr] by then. *)
Theorem invalid_schema_type_raises (schema_type attr_type : string)
    (attr_name : option string) (schema_name : option (list string))
    (s : state) :
  Py.upper schema_type ≠ "VERTEX" ->
  Py.upper schema_type ≠ "EDGE" ->
  _add_attribute schema_type attr_type attr_name schema_name s
  = (Raise (Exception "schema_type has to be VERTEX or EDGE"),
     with_result_attr attr_name s).
Proof.
  intros Hv He. unfold _add_attribute, _add_attribute_target, bind. simpl.
  destruct (String.eqb_spec (Py.upper schema_type) "VERTEX"); [done|].
  by destruct (String.eqb_spec (Py.upper schema_type) "EDGE").
Qed.

Lemma _add_attribute_loop_edges (schema_type attr_type a : string)
    (names : list string) (tasks : list string) (s : state) :
  names ⊆ getEdgeTypes (remote s) ->
  _add_attribute_loop false schema_type attr_type (Some a) (map AStr names)
    tasks s
  = (Ok (tasks ++ edge_statements schema_type attr_type a (remote s) names),
     called (map (fun n => GetEdgeType (AStr n)) names) s).
Proof.
  revert tasks s. induction names as [|n l IH]; intros tasks s Hsub; simpl.
  - by rewrite app_nil_r, called_nil.
  - assert (Hn : n ∈ getEdgeTypes (remote s)) by (apply Hsub; left).
    unfold getEdgeTypes in Hn.
    destruct (find_name_is_Some _ _ Hn) as (et & Hf & _ & _).
    assert (Hg : getEdgeType (remote s) (AStr n) = Ok (Some et))
      by (unfold getEdgeType; by rewrite Hf).
    unfold bind, conn_getEdgeType. rewrite Hg. simpl.
    rewrite IH by (intros x Hx; apply Hsub; by right).
    rewrite called_app. simpl.
    by destruct (bool_decide _); rewrite <- ?app_assoc.
Qed.


(** *** More on the parameter inferencer *)

Lemma parse_params_of_empty_list (q : string) :
  input_params q = "" -> parse_params q = (∅, false).
Proof. intros H. unfold parse_params. rewrite H. reflexivity. Qed.

(** A routine whose source has nothing between its first [(] and its first
    [)]: [_get_Params] does not raise; it returns the empty mapping, prints
    that the algorithm has no input parameter and stores the empty mapping
    under the name. *)
Theorem no_declared_parameters_give_the_empty_mapping (query_name : string)
    (s : state) (u : string) (rest : list string) :
  matching query_name (_get_values (algo_dict s)) = u :: rest ->
  requests_get_text (List.last rest u) ≠ "" ->
  input_params (requests_get_text (List.last rest u)) = "" ->
  _get_Params query_name s
  = (Ok ∅,
     with_params_dict (<[query_name := ∅]> (params_dict s))
       (written [Line "The algorithm does not have any input parameter."]
          (called (map HttpGet (u :: rest)) s))).
Proof.
  intros Hm Hne He.
  rewrite (_get_Params_found _ _ _ _ (_get_query_last _ _ _ _ Hm Hne)).
  unfold inferred. by rewrite (parse_params_of_empty_list _ He).
Qed.

(** The loop over the declared parameters stops at the first one whose
    reading raises: what was stored before it stays in the mapping, and the
    parameters after it are not looked at. *)
Theorem parsing_stops_at_the_first_failure (before : list string)
    (bad : string) (after : list string)
    (d d1 d2 : gmap string (pyvalue pyfloat)) :
  _get_Params_loop before d = (d1, true) ->
  _get_Params_step bad d1 = (d2, false) ->
  _get_Params_loop (before ++ bad :: after) d = (d2, false).
Proof.
  revert d. induction before as [|p l IH]; intros d Hb Hs; simpl in *.
  - injection Hb as ->. unfold then_parse. by rewrite Hs.
  - unfold then_parse in *. destruct (_get_Params_step p d) as [d' [|]].
    + by apply IH.
    + discriminate.
Qed.

(** *** More on the runner *)

(** When the inferred mapping is empty, [runAlgorithm] without explicit
    parameters runs the installed query without a payload and returns what
    the server answers. *)
Theorem empty_defaults_run_without_payload (query_name schema_type : string)
    (feat_name : option string) (schema_name : option (list string))
    (timeout : Z) (sizeLimit : option Z) (s s1 : state) :
  _get_Params query_name s = (Ok ∅, s1) ->
  runAlgorithm query_name None schema_type feat_name schema_name timeout
    sizeLimit s
  = (Ok (fst (runInstalledQuery (remote s1) query_name None timeout sizeLimit)),
     with_remote
       (snd (runInstalledQuery (remote s1) query_name None timeout sizeLimit))
       (called [RunInstalledQuery query_name None timeout sizeLimit]
          (written [DefaultParams ∅] s1))).
Proof.
  intros Hp. unfold runAlgorithm, bind. rewrite Hp.
  assert (Ht : truthy (∅ : gmap string (pyvalue pyfloat)) = false)
    by (unfold truthy; by rewrite map_size_empty).
  rewrite Ht. unfold conn_runInstalledQuery. simpl.
  destruct (runInstalledQuery (remote s1) query_name None timeout sizeLimit)
    as [[r|] r']; reflexivity.
Qed.

(** With explicit parameters and no result attribute asked for, the source
    is still downloaded and parsed; then the installed query is run with
    the caller's parameters as they are, and the answer of the server is
    returned. *)
Theorem explicit_parameters_are_passed_as_given (query_name schema_type : string)
    (params defaults : gmap string (pyvalue pyfloat))
    (feat_name : option string) (schema_name : option (list string))
    (timeout : Z) (sizeLimit : option Z) (s s1 : state) :
  _get_Params query_name s = (Ok defaults, s1) ->
  truthy_str feat_name = None ->
  runAlgorithm query_name (Some params) schema_type feat_name schema_name
    timeout sizeLimit s
  = (Ok (fst (runInstalledQuery (remote s1) query_name (Some params) timeout
                sizeLimit)),
     with_remote
       (snd (runInstalledQuery (remote s1) query_name (Some params) timeout
               sizeLimit))
       (called [RunInstalledQuery query_name (Some params) timeout sizeLimit] s1)).
Proof.
  intros Hp Hf. unfold runAlgorithm, bind. rewrite Hp, Hf. simpl.
  unfold conn_runInstalledQuery.
  destruct (runInstalledQuery (remote s1) query_name (Some params) timeout
              sizeLimit) as [[r|] r']; reflexivity.
Qed.

(** A routine that is not in the catalog cannot be run, with or without
    explicit parameters: [runAlgorithm] prints the catalog and raises the
    unknown-name [ValueError]; nothing is asked of the server. *)
Theorem unknown_routine_is_never_run (query_name schema_type : string)
    (params : option (gmap string (pyvalue pyfloat)))
    (feat_name : option string) (schema_name : option (list string))
    (timeout : Z) (sizeLimit : option Z) (s : state) :
  algo_dict s = algo_dict0 ->
  query_name ∉ catalog_names algo_dict0 ->
  runAlgorithm query_name params schema_type feat_name schema_name timeout
    sizeLimit s
  = (Raise (ValueError not_included),
     written (map Line (fst (listing algo_dict0 None))) s).
Proof.
  intros Hd Hn.
  pose proof (_get_Params_raises _ _ _ _ (_get_query_unknown _ _ Hd Hn)) as Hp.
  unfold runAlgorithm, bind. destruct params; by rewrite Hp.
Qed.

(** A result attribute is asked for, and the inferred parameters of the
    routine have no [result_attr]: [runAlgorithm] raises the [ValueError]
    whose message ends in the browsable location of the routine; the schema
    is not touched and the query is not run. *)
Theorem feature_of_routine_without_result_attr (query_name schema_type feat : string)
    (params defaults : gmap string (pyvalue pyfloat))
    (schema_name : option (list string)) (timeout : Z) (sizeLimit : option Z)
    (s s1 : state) :
  algo_dict s = algo_dict0 ->
  _get_Params query_name s = (Ok defaults, s1) ->
  feat ≠ "" ->
  defaults !! "result_attr" = None ->
  ∃ u b,
    u ∈ _get_values algo_dict0 ∧ leaf_name u = query_name ∧ blob_url u = Ok b ∧
    runAlgorithm query_name (Some params) schema_type (Some feat) schema_name
      timeout sizeLimit s
    = (Raise (ValueError
                ("The algorithm does not provide any feature, see the algorithm details:"
                 +:+ b +:+ ".")), s1).
Proof.
  intros Hd Hp Hf Hn.
  destruct (_get_Params_Ok _ _ _ _ Hp) as (Hne & _ & Hs1).
  destruct (resolved_matching _ _ Hne) as (u & rest & Hm).
  assert (Hu : u ∈ _get_values algo_dict0 ∧ leaf_name u = query_name).
  { rewrite <- Hd. apply matching_elem. rewrite Hm. left. }
  destruct (shipped_locations_browsable u (proj1 Hu)) as [b Hb].
  exists u, b. split; [apply Hu|]. split; [apply Hu|]. split; [done|].
  assert (Hurl : _get_query_url query_name s1 = (Ok b, s1)).
  { rewrite <- Hb. apply (_get_query_url_found _ _ u rest). by rewrite Hs1. }
  unfold runAlgorithm, bind. rewrite Hp.
  assert (Ht : truthy_str (Some feat) = Some feat) by (by destruct feat).
  rewrite Ht, Hn. rewrite bool_decide_eq_false_2 by (by intros [? ?]).
  by rewrite Hurl.
Qed.

(** A result attribute is asked for, the routine has a [result_attr]
    parameter, and [queryResult_type_dict] has no entry for the routine:
    [runAlgorithm] raises [KeyError] before the schema is looked at. *)
Theorem feature_of_untyped_routine_is_KeyError (query_name schema_type feat : string)
    (params defaults : gmap string (pyvalue pyfloat)) (v : pyvalue pyfloat)
    (schema_name : option (list string)) (timeout : Z) (sizeLimit : option Z)
    (s s1 : state) :
  _get_Params query_name s = (Ok defaults, s1) ->
  feat ≠ "" ->
  defaults !! "result_attr" = Some v ->
  queryResult_type_dict s !! query_name = None ->
  runAlgorithm query_name (Some params) schema_type (Some feat) schema_name
    timeout sizeLimit s
  = (Raise (KeyError query_name), s1).
Proof.
  intros Hp Hf Hv Hn.
  destruct (_get_Params_Ok _ _ _ _ Hp) as (_ & _ & Hs1).
  unfold runAlgorithm, bind. rewrite Hp.
  assert (Ht : truthy_str (Some feat) = Some feat) by (by destruct feat).
  rewrite Ht, Hv. rewrite bool_decide_eq_true_2 by (by exists v).
  unfold gets. rewrite Hs1. simpl. by rewrite Hn.
Qed.

(** A result attribute is asked for, the routine has a [result_attr]
    parameter and a declared feature type, and [_add_attribute] returns:
    the attribute is ensured first, with that type, and then the query is
    run with the caller's parameters in which [result_attr] is bound to the
    attribute name, whatever the caller had bound it to. *)
Theorem feature_is_ensured_then_passed (query_name schema_type feat ty report : string)
    (params defaults : gmap string (pyvalue pyfloat)) (v : pyvalue pyfloat)
    (schema_name : option (list string)) (timeout : Z) (sizeLimit : option Z)
    (s s1 s2 : state) :
  _get_Params query_name s = (Ok defaults, s1) ->
  feat ≠ "" ->
  defaults !! "result_attr" = Some v ->
  queryResult_type_dict s !! query_name = Some ty ->
  _add_attribute schema_type ty (Some feat) schema_name s1 = (Ok report, s2) ->
  let payload := Some (<["result_attr" := VStr feat]> params) in
  runAlgorithm query_name (Some params) schema_type (Some feat) schema_name
    timeout sizeLimit s
  = (Ok (fst (runInstalledQuery (remote s2) query_name payload timeout sizeLimit)),
     with_remote
       (snd (runInstalledQuery (remote s2) query_name payload timeout sizeLimit))
       (called [RunInstalledQuery query_name payload timeout sizeLimit] s2)).
Proof.
  intros Hp Hf Hv Hty Ha payload.
  destruct (_get_Params_Ok _ _ _ _ Hp) as (_ & _ & Hs1).
  unfold runAlgorithm, bind. rewrite Hp.
  assert (Ht : truthy_str (Some feat) = Some feat) by (by destruct feat).
  rewrite Ht, Hv. rewrite bool_decide_eq_true_2 by (by exists v).
  unfold gets.
  assert (Hq : queryResult_type_dict s1 !! query_name = Some ty)
    by (rewrite Hs1; exact Hty).
  rewrite Hq, Ha. unfold ret, conn_runInstalledQuery. fold payload.
  destruct (runInstalledQuery (remote s2) query_name payload timeout sizeLimit)
    as [[r|] r']; reflexivity.
Qed.

(** *** The listing of any catalog *)

Lemma node_nested_ind (P : node -> Prop) :
  (∀ u, P (Leaf u)) ->
  (∀ items, Forall (fun kv => P (snd kv)) items -> P (Dict items)) ->
  ∀ v, P v.
Proof.
  intros HL HD. fix IH 1. intros [u|items]; [apply HL|].
  apply HD. induction items as [|[k v] r IHr]; constructor; [apply IH|apply IHr].
Qed.

Lemma _print_item_Dict (key : string) (d : dict) (indent : nat) :
  _print_item key (Dict d) indent
  = then_print (print_line (Py.spaces indent +:+ key +:+ ": "))
      (_print_items d (S indent)).
Proof.
  assert (H : ∀ l,
    (fix items (l : list (string * node)) : printer :=
       match l with
       | [] => ([], Ok tt)
       | (k, v) :: r => then_print (_print_item k v (S indent)) (items r)
       end) l = _print_items l (S indent)).
  { induction l as [|[k v] r IH]; [done|].
    change (_print_items ((k, v) :: r) (S indent))
      with (then_print (_print_item k v (S indent)) (_print_items r (S indent))).
    by rewrite <- IH. }
  rewrite <- H. reflexivity.
Qed.

Lemma prints_all_then (a b : printer) (la lb : list string) (na nb : nat) :
  prints_all a la na -> prints_all b lb nb ->
  prints_all (then_print a b) (la ++ lb) (na + nb).
Proof.
  intros [Ha1 Ha2] [Hb1 Hb2]. destruct a as [oa ra], b as [ob rb].
  unfold prints_all. rewrite forallb_app. simpl in *. split.
  - intros [Hla Hlb]%andb_true_iff.
    destruct (Ha1 Hla) as (-> & Hna & Hina), (Hb1 Hlb) as (-> & Hnb & Hinb).
    simpl. split; [done|]. split; [by rewrite length_app, Hna, Hnb|].
    intros u [Hu|Hu]%elem_of_app.
    + destruct (Hina u Hu) as [i Hi]. exists i. apply elem_of_app. by left.
    + destruct (Hinb u Hu) as [i Hi]. exists i. apply elem_of_app. by right.
  - intros H. destruct (forallb printable la) eqn:Hla.
    + destruct (Ha1 eq_refl) as (-> & _ & _). simpl in *. by rewrite (Hb2 H).
    + by rewrite (Ha2 eq_refl).
Qed.

Lemma prints_all_line (l : string) : prints_all (print_line l) [] 1.
Proof.
  split; [|done]. intros _. split; [done|]. split; [done|].
  intros u Hu. by apply elem_of_nil in Hu.
Qed.

Lemma prints_all_item (v : node) :
  ∀ key indent,
    prints_all (_print_item key v indent) (_get_values_node v)
      (1 + count_keys_node v + length (_get_values_node v)).
Proof.
  induction v as [u|items IH] using node_nested_ind; intros key indent.
  - change (_get_values_node (Leaf u)) with ([] ++ [u]).
    change (1 + count_keys_node (Leaf u) + length ([] ++ [u]))%nat with (1 + 1)%nat.
    unfold _print_item. apply prints_all_then; [apply prints_all_line|].
    unfold prints_all, printable, shown. cbn [forallb fst snd].
    destruct (String.eqb_spec u "") as [->|Hne]; cbn [negb orb andb].
    + split; [|done]. intros _. split; [done|]. split; [done|].
      intros u [->|Hu%elem_of_nil]%elem_of_cons; [|done].
      exists (S indent). left.
    + destruct (blob_url u) as [b|e] eqn:Hb; cbn [is_Ok fst snd print_line length].
      * split; [|done]. intros _. split; [done|]. split; [done|].
        intros u' [->|Hu%elem_of_nil]%elem_of_cons; [|done].
        exists (S indent). destruct (String.eqb_spec u ""); [done|].
        rewrite Hb. left.
      * split; [done|]. intros _. f_equal.
        unfold blob_url in Hb.
        destruct (Py.item (Py.split u "master") 1); [done|]. by injection Hb.
  - rewrite _print_item_Dict.
    assert (Hitems : ∀ indent',
      prints_all (_print_items items indent') (_get_values_node (Dict items))
        (count_keys_node (Dict items) + length (_get_values_node (Dict items)))).
    { clear key indent. induction IH as [|[k v] r Hv _ IHr]; intros indent'.
      - apply (prints_all_then ([], Ok tt) ([], Ok tt) [] [] 0 0);
          split; try done; intros _; repeat split; try done;
          intros u Hu; by apply elem_of_nil in Hu.
      - change (_get_values_node (Dict ((k, v) :: r)))
          with (_get_values_node v ++ _get_values_node (Dict r)).
        change (count_keys_node (Dict ((k, v) :: r)))
          with (S (count_keys_node v + count_keys_node (Dict r))).
        change (_print_items ((k, v) :: r) indent')
          with (then_print (_print_item k v indent') (_print_items r indent')).
        rewrite length_app.
        replace (S (count_keys_node v + count_keys_node (Dict r))
                 + (length (_get_values_node v)
                    + length (_get_values_node (Dict r))))%nat
          with ((1 + count_keys_node v + length (_get_values_node v))
                + (count_keys_node (Dict r)
                   + length (_get_values_node (Dict r))))%nat by lia.
        apply prints_all_then; [apply Hv|apply IHr]. }
    change (_get_values_node (Dict items)) with ([] ++ _get_values_node (Dict items)).
    replace (1 + count_keys_node (Dict items)
             + length ([] ++ _get_values_node (Dict items)))%nat
      with (1 + (count_keys_node (Dict items)
                 + length (_get_values_node (Dict items))))%nat by (simpl; lia).
    apply prints_all_then; [apply prints_all_line|apply Hitems].
Qed.

Lemma prints_all_items (d : dict) (indent : nat) :
  prints_all (_print_items d indent) (_get_values d)
    (count_keys d + length (_get_values d)).
Proof.
  unfold _get_values, count_keys. induction d as [|[k v] r IH].
  - split; try done. intros _. repeat split; try done.
    intros u Hu. by apply elem_of_nil in Hu.
  - change (_get_values_node (Dict ((k, v) :: r)))
      with (_get_values_node v ++ _get_values_node (Dict r)).
    change (count_keys_node (Dict ((k, v) :: r)))
      with (S (count_keys_node v + count_keys_node (Dict r))).
    change (_print_items ((k, v) :: r) indent)
      with (then_print (_print_item k v indent) (_print_items r indent)).
    rewrite length_app.
    replace (S (count_keys_node v + count_keys_node (Dict r))
             + (length (_get_values_node v)
                + length (_get_values_node (Dict r))))%nat
      with ((1 + count_keys_node v + length (_get_values_node v))
            + (count_keys_node (Dict r)
               + length (_get_values_node (Dict r))))%nat by lia.
    apply prints_all_then; [apply prints_all_item|apply IH].
Qed.

(** [listAlgorithms()] over any catalog.  When every location is empty or
    has a part after its first [master], the call returns after printing
    the header, one line for each key of every level and one line for each
    location, showing it in its browsable form.  When some location is
    neither, the call raises [IndexError], and so do [_get_query] and
    [_get_query_url] on a name that matches nothing. *)
Theorem listing_of_any_catalog (s : state) :
  let d := algo_dict s in
  let lines := fst (listing d None) in
  (forallb printable (_get_values d) = true ->
   listAlgorithms None s = (Ok tt, written (map Line lines) s) ∧
   hd_error lines = Some (listing_header None) ∧
   length lines = (1 + count_keys d + length (_get_values d))%nat ∧
   ∀ u, u ∈ _get_values d ->
        ∃ indent, Py.spaces indent +:+ shown u +:+ ". " ∈ lines) ∧
  (forallb printable (_get_values d) = false ->
   fst (listAlgorithms None s) = Raise IndexError ∧
   ∀ query_name, matching query_name (_get_values d) = [] ->
     fst (_get_query query_name s) = Raise IndexError ∧
     fst (_get_query_url query_name s) = Raise IndexError).
Proof.
  intros d lines.
  assert (H : prints_all (listing d None) (_get_values d)
                (1 + (count_keys d + length (_get_values d)))).
  { change (_get_values d) with ([] ++ _get_values d).
    unfold listing, _print_dict.
    apply prints_all_then; [apply prints_all_line|apply prints_all_items]. }
  destruct H as [H1 H2]. split.
  - intros Hp. destruct (H1 Hp) as (Hr & Hn & Hin).
    rewrite listAlgorithms_spec. fold d. rewrite Hr.
    split; [done|]. split; [|split; [exact Hn|exact Hin]].
    subst lines. unfold listing, then_print, print_line.
    by destruct (_print_dict d None 0).
  - intros Hp. specialize (H2 Hp).
    rewrite listAlgorithms_spec. fold d. split; [exact H2|].
    intros query_name Hm. split.
    + rewrite _get_query_missing by (unfold resolved; fold d; by rewrite Hm).
      simpl. unfold listing_then_raise. fold d. by rewrite H2.
    + rewrite _get_query_url_missing by done.
      simpl. unfold listing_then_raise. fold d. by rewrite H2.
Qed.

Lemma dict_get_None {A} (d : list (string * A)) (key : string) :
  key ∉ map fst d -> dict_get d key = None.
Proof.
  induction d as [|[k v] r IH]; [done|]. simpl. intros Hn.
  destruct (String.eqb_spec k key) as [->|_].
  - exfalso. apply Hn. left.
  - apply IH. intros Hin. apply Hn. by right.
Qed.

(** The categories [listAlgorithms] accepts are the six keys of the top
    level of the catalog.  For any other string, a key of a deeper level
    included, the header is printed and the [ValueError] about the category
    is raised. *)
Theorem categories_are_the_top_level_keys (category : string) (s : state) :
  algo_dict s = algo_dict0 ->
  (category ∈ ["Centrality"; "Classification"; "Community"; "Embeddings";
               "Path"; "Topological Link Prediction"] ->
   fst (listAlgorithms (Some category) s) = Ok tt) ∧
  (category ∉ ["Centrality"; "Classification"; "Community"; "Embeddings";
               "Path"; "Topological Link Prediction"] ->
   listAlgorithms (Some category) s
   = (Raise (ValueError "There is no such category within the algorithms."),
      written [Line (listing_header (Some category))] s)).
Proof.
  intros Hd. rewrite listAlgorithms_spec, Hd. split.
  - intros Hin. simpl fst.
    repeat (apply elem_of_cons in Hin as [->|Hin]; [by_evaluation|]).
    by apply elem_of_nil in Hin.
  - intros Hn. unfold listing, _print_dict.
    rewrite (dict_get_None algo_dict0 category) by exact Hn. reflexivity.
Qed.

(** *** Strings *)

Lemma string_app_cons (x : ascii) (a b : string) :
  String x a +:+ b = String x (a +:+ b).
Proof. reflexivity. Qed.

Lemma string_app_assoc (a b c : string) : (a +:+ b) +:+ c = a +:+ b +:+ c.
Proof.
  induction a as [|x a IH]; [done|]. rewrite !string_app_cons. by rewrite IH.
Qed.

Lemma string_app_nil_r (a : string) : a +:+ "" = a.
Proof.
  induction a as [|x a IH]; [done|]. rewrite string_app_cons. by rewrite IH.
Qed.

Lemma rev_str_app_acc (s acc : string) :
  Py.rev_str acc s = Py.rev_str "" s +:+ acc.
Proof.
  revert acc. induction s as [|c r IH]; intros acc; [done|]. simpl.
  rewrite (IH (String c acc)), (IH (String c "")).
  by rewrite string_app_assoc.
Qed.

Lemma rev_str_rev_str (acc a : string) :
  Py.rev_str "" (Py.rev_str acc a) = Py.rev_str "" acc +:+ a.
Proof.
  revert acc. induction a as [|c r IH]; intros acc; simpl.
  - by rewrite string_app_nil_r.
  - rewrite IH. simpl. rewrite (rev_str_app_acc acc (String c "")).
    by rewrite string_app_assoc.
Qed.

Lemma all_chars_app (f : ascii -> bool) (a b : string) :
  all_chars f (a +:+ b) = all_chars f a && all_chars f b.
Proof.
  induction a as [|c r IH]; [done|]. rewrite string_app_cons. simpl.
  by rewrite IH, andb_assoc.
Qed.

Lemma prefix_char (c x : ascii) (r : string) :
  String.prefix (String c "") (String x r) = Ascii.eqb x c.
Proof.
  simpl. destruct (ascii_dec c x) as [->|Hne].
  - rewrite Ascii.eqb_refl. by destruct r.
  - destruct (Ascii.eqb_spec x c); [by subst|done].
Qed.

(** Splitting at a single character. *)
Lemma split_go_free (c : ascii) (a rest cur : string) :
  free_of c a = true ->
  Py.split_go (String c "") 0 cur (a +:+ rest)
  = Py.split_go (String c "") 0 (Py.rev_str cur a) rest.
Proof.
  revert cur. induction a as [|x a IH]; intros cur; [done|].
  unfold free_of. simpl all_chars. intros [Hx Ha]%andb_true_iff.
  rewrite string_app_cons.
  change (Py.split_go (String c "") 0 cur (String x (a +:+ rest)))
    with (if String.prefix (String c "") (String x (a +:+ rest))
          then Py.rev_str "" cur
               :: Py.split_go (String c "") (String.length (String c "") - 1) ""
                    (a +:+ rest)
          else Py.split_go (String c "") 0 (String x cur) (a +:+ rest)).
  rewrite prefix_char. apply negb_true_iff in Hx. rewrite Hx. by apply IH.
Qed.

Lemma split_go_sep (c : ascii) (rest cur : string) :
  Py.split_go (String c "") 0 cur (String c rest)
  = Py.rev_str "" cur :: Py.split_go (String c "") 0 "" rest.
Proof.
  change (Py.split_go (String c "") 0 cur (String c rest))
    with (if String.prefix (String c "") (String c rest)
          then Py.rev_str "" cur
               :: Py.split_go (String c "") (String.length (String c "") - 1) "" rest
          else Py.split_go (String c "") 0 (String c cur) rest).
  by rewrite prefix_char, Ascii.eqb_refl.
Qed.

Lemma split_free (c : ascii) (a : string) :
  free_of c a = true -> Py.split a (String c "") = [a].
Proof.
  intros Ha. unfold Py.split.
  rewrite <- (string_app_nil_r a) at 1. rewrite (split_go_free _ _ _ _ Ha).
  simpl. by rewrite rev_str_rev_str.
Qed.

Lemma split_cons (c : ascii) (a b : string) :
  free_of c a = true ->
  Py.split (a +:+ String c b) (String c "") = a :: Py.split b (String c "").
Proof.
  intros Ha. unfold Py.split.
  rewrite (split_go_free _ _ _ _ Ha), split_go_sep.
  by rewrite rev_str_rev_str.
Qed.

Lemma find_from_char (c : ascii) (a b : string) (i : Z) :
  free_of c a = true ->
  Py.find_from (String c "") (a +:+ String c b) i = i + Py.len a.
Proof.
  revert i. induction a as [|x a IH]; intros i.
  - intros _. unfold Py.len.
    change (Py.find_from (String c "") ("" +:+ String c b) i)
      with (if String.prefix (String c "") (String c b) then i
            else Py.find_from (String c "") b (i + 1)).
    rewrite prefix_char, Ascii.eqb_refl. simpl. lia.
  - unfold free_of. simpl all_chars. intros [Hx Ha]%andb_true_iff.
    rewrite string_app_cons.
    change (Py.find_from (String c "") (String x (a +:+ String c b)) i)
      with (if String.prefix (String c "") (String x (a +:+ String c b)) then i
            else Py.find_from (String c "") (a +:+ String c b) (i + 1)).
    rewrite prefix_char. apply negb_true_iff in Hx. rewrite Hx.
    rewrite (IH _ Ha). unfold Py.len. simpl String.length. lia.
Qed.

Lemma contains_char (c : ascii) (a b : string) :
  free_of c a = true -> Py.contains (String c "") (a +:+ String c b) = true.
Proof.
  intros Ha. unfold Py.contains, Py.find. rewrite (find_from_char _ _ _ _ Ha).
  unfold Py.len. apply Z.leb_le. lia.
Qed.

Lemma all_chars_impl (f g : ascii -> bool) (s : string) :
  (∀ c, f c = true -> g c = true) ->
  all_chars f s = true -> all_chars g s = true.
Proof.
  intros Hfg. induction s as [|c r IH]; [done|]. simpl.
  intros [Hc Hr]%andb_true_iff. by rewrite (Hfg c Hc), (IH Hr).
Qed.

Lemma rev_str_not_empty (acc w : string) : w ≠ "" -> Py.rev_str acc w ≠ "".
Proof.
  revert acc. induction w as [|c r IH]; intros acc Hw; [done|]. simpl.
  destruct r as [|c' r']; [done|]. by apply IH.
Qed.

(** Splitting at white space. *)
Lemma split_ws_go_blank (pad rest : string) :
  blank pad = true ->
  Py.split_ws_go "" (pad +:+ rest) = Py.split_ws_go "" rest.
Proof.
  induction pad as [|c r IH]; [done|]. unfold blank. simpl all_chars.
  intros [Hc Hr]%andb_true_iff. rewrite string_app_cons. simpl.
  rewrite Hc. by apply IH.
Qed.

Lemma split_ws_go_word (w rest cur : string) :
  all_chars (fun c => negb (Py.is_space c)) w = true ->
  Py.split_ws_go cur (w +:+ rest) = Py.split_ws_go (Py.rev_str cur w) rest.
Proof.
  revert cur. induction w as [|c r IH]; intros cur; [done|]. simpl all_chars.
  intros [Hc Hr]%andb_true_iff. rewrite string_app_cons. simpl.
  apply negb_true_iff in Hc. rewrite Hc. by apply IH.
Qed.

Lemma split_ws_go_space (cur rest : string) :
  cur ≠ "" ->
  Py.split_ws_go cur (String " " rest)
  = Py.rev_str "" cur :: Py.split_ws_go "" rest.
Proof. intros Hc. simpl. by destruct cur. Qed.

Lemma split_ws_go_end (cur : string) :
  cur ≠ "" -> Py.split_ws_go cur "" = [Py.rev_str "" cur].
Proof. intros Hc. simpl. by destruct cur. Qed.

Lemma word_no_space (w : string) :
  word w -> all_chars (fun c => negb (Py.is_space c)) w = true.
Proof.
  intros [_ H]. revert H. apply all_chars_impl.
  by intros c [? _]%andb_true_iff.
Qed.

Lemma word_free_of_eq (w : string) : word w -> free_of "=" w = true.
Proof.
  intros [_ H]. revert H. apply all_chars_impl.
  by intros c [_ ?]%andb_true_iff.
Qed.

Lemma blank_free_of_eq (pad : string) : blank pad = true -> free_of "=" pad = true.
Proof.
  apply all_chars_impl. intros c Hc.
  destruct (Ascii.eqb_spec c "="%char) as [->|]; [done|done].
Qed.

Lemma rev_str_word (w : string) : Py.rev_str "" (Py.rev_str "" w) = w.
Proof. by rewrite rev_str_rev_str. Qed.

Lemma split_ws_declaration (pad ty name : string) :
  blank pad = true -> word ty -> word name ->
  Py.split_ws (pad +:+ ty +:+ " " +:+ name +:+ " ") = [ty; name].
Proof.
  intros Hp Hty Hn. unfold Py.split_ws.
  rewrite (split_ws_go_blank _ _ Hp).
  rewrite (split_ws_go_word _ _ _ (word_no_space _ Hty)).
  change (" " +:+ name +:+ " ") with (String " " (name +:+ " ")).
  rewrite split_ws_go_space by (apply rev_str_not_empty, Hty).
  rewrite rev_str_word.
  rewrite (split_ws_go_word _ _ _ (word_no_space _ Hn)).
  rewrite split_ws_go_space by (apply rev_str_not_empty, Hn).
  by rewrite rev_str_word.
Qed.

Lemma split_ws_literal (lit : string) :
  word lit -> Py.split_ws (String " " lit) = [lit].
Proof.
  intros Hl. unfold Py.split_ws.
  change (Py.split_ws_go "" (String " " lit)) with (Py.split_ws_go "" lit).
  rewrite <- (string_app_nil_r lit) at 1.
  rewrite (split_ws_go_word _ _ _ (word_no_space _ Hl)).
  rewrite split_ws_go_end by (apply rev_str_not_empty, Hl).
  by rewrite rev_str_word.
Qed.

Lemma declaration_shape (pad ty name lit : string) :
  pad +:+ ty +:+ " " +:+ name +:+ " = " +:+ lit
  = (pad +:+ ty +:+ " " +:+ name +:+ " ") +:+ String "=" (String " " lit).
Proof.
  rewrite !string_app_assoc. reflexivity.
Qed.


Lemma string_length_app (a b : string) :
  String.length (a +:+ b) = (String.length a + String.length b)%nat.
Proof.
  induction a as [|x a IH]; [done|]. rewrite string_app_cons. simpl.
  by rewrite IH.
Qed.

Lemma substring_skip (a r : string) (n m : nat) :
  String.substring (String.length a + n) m (a +:+ r) = String.substring n m r.
Proof.
  induction a as [|x a IH]; [done|]. rewrite string_app_cons. exact IH.
Qed.

Lemma substring_take (b c : string) :
  String.substring 0 (String.length b) (b +:+ c) = b.
Proof.
  induction b as [|x b IH].
  - by destruct c.
  - rewrite string_app_cons. simpl. by rewrite IH.
Qed.

Lemma clamp_inside (n i : Z) : 0 <= i <= n -> Py.clamp n i = i.
Proof.
  intros H. unfold Py.clamp.
  assert (H1 : (i <? 0) = false) by (apply Z.ltb_ge; lia).
  assert (H2 : (n <? i) = false) by (apply Z.ltb_ge; lia).
  by rewrite H1, H1, H2.
Qed.

(** The text between the first [(] and the first [)]. *)
Lemma input_params_of_header (pre body post : string) :
  free_of "(" pre = true -> free_of ")" pre = true -> free_of ")" body = true ->
  input_params (pre +:+ "(" +:+ body +:+ ")" +:+ post) = body.
Proof.
  intros Ho Hc Hb. unfold input_params, Py.find.
  change ("(" +:+ body +:+ ")" +:+ post) with (String "(" (body +:+ ")" +:+ post)).
  change "(" with (String "("%char "").
  rewrite (find_from_char _ _ _ _ Ho).
  assert (He : pre +:+ String "(" (body +:+ ")" +:+ post)
               = (pre +:+ String "(" body) +:+ String ")" post).
  { rewrite string_app_assoc. reflexivity. }
  rewrite He at 2.
  change ")" with (String ")"%char "").
  assert (Hf : free_of ")" (pre +:+ String "(" body) = true).
  { unfold free_of in *. rewrite all_chars_app. simpl. by rewrite Hc, Hb. }
  rewrite (find_from_char _ _ _ _ Hf).
  unfold Py.slice, Py.len.
  rewrite !string_length_app. simpl String.length. rewrite !string_length_app.
  simpl String.length.
  rewrite !clamp_inside by lia.
  replace (Z.to_nat (0 + Z.of_nat (String.length pre) + 1))
    with (String.length (pre +:+ String "(" "") + 0)%nat
    by (rewrite string_length_app; simpl; lia).
  replace (Z.to_nat (0 + Z.of_nat (String.length pre + S (String.length body))
                     - (0 + Z.of_nat (String.length pre) + 1)))
    with (String.length body) by lia.
  replace (pre +:+ String "(" (body +:+ String ")" "" +:+ post))
    with ((pre +:+ String "(" "") +:+ body +:+ String ")" post)
    by (rewrite string_app_assoc; reflexivity).
  by rewrite substring_skip, substring_take.
Qed.

Lemma split_concat (c : ascii) (p : string) (ps : list string) :
  Forall (fun x => free_of c x = true) (p :: ps) ->
  Py.split (String.concat (String c "") (p :: ps)) (String c "") = p :: ps.
Proof.
  revert p. induction ps as [|q r IH]; intros p Hall.
  - apply split_free. by apply Forall_inv in Hall.
  - change (String.concat (String c "") (p :: q :: r))
      with (p +:+ String c (String.concat (String c "") (q :: r))).
    rewrite split_cons by (by apply Forall_inv in Hall).
    rewrite IH; [done|]. by apply Forall_inv_tail in Hall.
Qed.

(** [parse_params] on a source whose first parenthesis opens a list of
    declarations between commas, closed by the first closing parenthesis:
    the loop runs over the declarations, in their order, from the empty
    mapping. *)
Theorem parse_params_of_header (pre post p : string) (ps : list string) :
  free_of "(" pre = true ->
  free_of ")" pre = true ->
  Forall (fun x => free_of "," x = true ∧ free_of ")" x = true) (p :: ps) ->
  parse_params (pre +:+ "(" +:+ String.concat "," (p :: ps) +:+ ")" +:+ post)
  = _get_Params_loop (p :: ps) ∅.
Proof.
  intros Ho Hc Hall. unfold parse_params.
  assert (Hb : free_of ")" (String.concat "," (p :: ps)) = true).
  { clear Ho Hc. revert p Hall. induction ps as [|q r IH]; intros p Hall.
    - by apply Forall_inv in Hall as [_ ?].
    - change (String.concat "," (p :: q :: r))
        with (p +:+ String "," (String.concat "," (q :: r))).
      unfold free_of. rewrite all_chars_app. simpl.
      apply Forall_cons in Hall as [[_ Hp] Hr].
      unfold free_of in Hp. rewrite Hp. simpl. apply (IH _ Hr). }
  rewrite (input_params_of_header _ _ _ Ho Hc Hb).
  change "," with (String ","%char "").
  rewrite split_concat; [done|].
  eapply Forall_impl; [exact Hall|]. by intros x [? _].
Qed.
End Featurizer.

(** ** The built-ins on small inputs *)

Example split_commas : Py.split "INT k = 5, STRING s" "," = ["INT k = 5"; " STRING s"].
Proof. reflexivity. Qed.

Example split_master :
  Py.split "https://raw/master/algorithms/x.gsql" "master"
  = ["https://raw/"; "/algorithms/x.gsql"].
Proof. reflexivity. Qed.

Example split_ws_ex : Py.split_ws "  INT   k " = ["INT"; "k"].
Proof. reflexivity. Qed.

Example slice_ex : Py.slice_to "tg_bfs.gsql" (-5) = "tg_bfs".
Proof. reflexivity. Qed.

Example slice_quotes : Py.slice (dq +:+ "x" +:+ dq) 1 (-2) = "".
Proof. reflexivity. Qed.

Example int_ex : Py.int " 5" = Some 5.
Proof. reflexivity. Qed.

Example splitlines_ex :
  Py.splitlines ("a" +:+ nl +:+ "b" +:+ nl) = ["a"; "b"].
Proof. reflexivity. Qed.

Example replace_ex : Py.replace "q{S}x{S}" "{S}" "_1" = "q_1x_1".
Proof. reflexivity. Qed.

Example catalog_names_shipped :
  catalog_names algo_dict0 =
  ["tg_pagerank_wt"; "tg_pagerank"; "tg_article_rank"; "tg_betweenness_cent";
   "tg_closeness_cent_approx"; "tg_closeness_cent"; "tg_degree_cent";
   "tg_eigenvector_cent"; "tg_harmonic_cent"; "tg_maximal_indep_set"; "tg_scc";
   "tg_kcore"; "tg_label_prop"; "tg_lcc"; "tg_louvain"; "tg_tri_count_fast";
   "tg_fastRP"; "tg_bfs"; "tg_cycle_detection_count"; "tg_shortest_ss_no_wt";
   "tg_common_neighbors"; "tg_preferential_attachment"; "tg_same_community";
   "tg_total_neighbors"].
Proof. by_evaluation. Qed.

Example type_of_pagerank : queryResult_type_dict0 !! "tg_pagerank" = Some "Float".
Proof. by_evaluation. Qed.


(** ** The methods on the small server *)

Local Abbreviation demo := (@__init__ Demo.server Demo.pyfloat Demo.server0).
Local Abbreviation demo_get_query := (_get_query Demo.requests_get_text).
Local Abbreviation demo_get_Params :=
  (_get_Params Demo.requests_get_text Demo.float_of_str).
Local Abbreviation demo_install :=
  (_install_query_file Demo.graphname Demo.requests_get_text
     Demo.getInstalledQueries Demo.gsql).
Local Abbreviation demo_add_attribute :=
  (_add_attribute Demo.graphname Demo.str_of_list Demo.random_string Demo.gsql
     Demo.getSchema_EdgeTypes Demo.getVertexTypes Demo.getVertexType).
Local Abbreviation demo_run :=
  (runAlgorithm Demo.graphname Demo.requests_get_text Demo.float_of_str
     Demo.str_of_list Demo.random_string Demo.gsql Demo.runInstalledQuery
     Demo.getSchema_EdgeTypes Demo.getVertexTypes Demo.getVertexType).
Local Abbreviation pagerank_url :=
  "https://raw.githubusercontent.com/tigergraph/gsql-graph-algorithms/master/algorithms/Centrality/pagerank/global/unweighted/tg_pagerank.gsql".
Local Abbreviation bfs_url :=
  "https://raw.githubusercontent.com/tigergraph/gsql-graph-algorithms/master/algorithms/Path/bfs/tg_bfs.gsql".
Local Abbreviation kcore_url :=
  "https://raw.githubusercontent.com/tigergraph/gsql-graph-algorithms/master/algorithms/Community/k_core/tg_kcore.gsql".

(** C4: the header [(INT k = 5, STRING label = "x")].  The integer default
    is read as [5]; of the string default the slice [[1:-2]] keeps nothing,
    so [label] is bound to the empty string, whatever [float] does. *)
Theorem string_default_loses_its_last_character (pyfloat : Type)
    (float_of_str : string -> option pyfloat) :
  let header :=
    "CREATE QUERY tg_pagerank(INT k = 5, STRING label = " +:+ dq +:+ "x" +:+ dq
    +:+ ") {}" in
  input_params header = "INT k = 5, STRING label = " +:+ dq +:+ "x" +:+ dq ∧
  parse_params float_of_str header
  = (<["label" := VStr ""]> (<["k" := VInt 5]> ∅), true) ∧
  Demo.requests_get_text pagerank_url = header ∧
  fst (demo_get_Params "tg_pagerank" demo)
  = Ok (<["label" := VStr ""]> (<["k" := VInt 5]> ∅)).
Proof. repeat split; by_evaluation. Qed.

(** C1: [tg_pagerank] with the header above has the defaults [k = 5] and
    [label = ""], none of them [None].  [runAlgorithm] without explicit
    parameters downloads the source, prints the defaults and returns [None];
    [runInstalledQuery] is not called.  A routine without parameters
    ([tg_kcore]) is run. *)
Theorem complete_defaults_return_without_running :
  let end_state := snd (demo_run "tg_pagerank" None "VERTEX" None None 2147480 None demo) in
  fst (demo_run "tg_pagerank" None "VERTEX" None None 2147480 None demo) = Ok None ∧
  stdout end_state
  = [DefaultParams (<["label" := VStr ""]> (<["k" := VInt 5]> ∅))] ∧
  calls end_state = [HttpGet pagerank_url] ∧
  List.filter is_run (calls end_state) = [] ∧
  calls (snd (demo_run "tg_kcore" None "VERTEX" None None 2147480 None demo))
  = [HttpGet kcore_url; RunInstalledQuery "tg_kcore" None 2147480 None].
Proof. repeat split; by_evaluation. Qed.

(** C6: the edge type [Knows] has the attribute [since].  Asked to ensure
    [since] on the list [["Knows"]], [_add_attribute] raises [TypeError]
    instead of reporting that the attribute exists; no schema job is
    submitted.  Without a list of names the report is given. *)
Theorem present_attribute_on_listed_type_raises :
  Demo.getSchema_EdgeTypes Demo.server0
  = [ {| Name := "Knows"; Attributes := [ {| AttributeName := "since" |} ] |} ] ∧
  demo_add_attribute "EDGE" "INT" (Some "since") (Some ["Knows"]) demo
  = (Raise TypeError,
     called [GetEdgeTypes; GetEdgeType (AList ["Knows"])]
       (with_result_attr (Some "since") demo)) ∧
  fst (demo_add_attribute "EDGE" "INT" (Some "since") None demo)
  = Ok "Attribute already exists" ∧
  calls (snd (demo_add_attribute "EDGE" "INT" (Some "since") None demo))
  = [GetEdgeTypes; GetEdgeType (AStr "Knows")].
Proof.
  split; [reflexivity|]. split; [apply _add_attribute_edge_list|].
  split; by_evaluation.
Qed.

(** C7: the edge type [Knows] lacks the attribute [score].  Asked to add
    [score] to the list [["Knows"]], [_add_attribute] asks for the metadata
    of the list itself, not of [Knows], and raises [TypeError]: no statement
    is queued and no job is submitted.  Without a list of names the
    statement for [Knows] is submitted. *)
Theorem listed_types_are_not_enumerated :
  demo_add_attribute "EDGE" "INT" (Some "score") (Some ["Knows"]) demo
  = (Raise TypeError,
     called [GetEdgeTypes; GetEdgeType (AList ["Knows"])]
       (with_result_attr (Some "score") demo)) ∧
  calls (snd (demo_add_attribute "EDGE" "INT" (Some "score") None demo))
  = [GetEdgeTypes; GetEdgeType (AStr "Knows");
     Gsql ("USE GRAPH social" +:+ nl +:+
           "CREATE GLOBAL SCHEMA_CHANGE JOB add_EDGE_attr_aaaaaa {" +:+ nl +:+
           "ALTER EDGE Knows ADD ATTRIBUTE (score INT);" +:+ nl +:+
           "}" +:+ nl +:+ "RUN GLOBAL SCHEMA_CHANGE JOB add_EDGE_attr_aaaaaa")].
Proof.
  split; [apply _add_attribute_edge_list|]. by_evaluation.
Qed.

(** C3 fails as stated: [tg_common_neighbors] is a routine of the catalog,
    and [queryResult_type_dict] has no entry for it. *)
Lemma catalog_name_without_type :
  ¬ ∀ query_name, query_name ∈ catalog_names algo_dict0 ->
                  is_Some (queryResult_type_dict0 !! query_name).
Proof.
  intros H. destruct (H "tg_common_neighbors") as [ty Hty].
  - by_decision.
  - vm_compute in Hty. discriminate.
Qed.

Lemma catalog_names_resolve_witness :
  "tg_pagerank" ∈ catalog_names algo_dict0 ∧
  queryResult_type_dict0 !! "tg_pagerank" = Some "Float" ∧
  "Float" ∈ feature_types.
Proof.
  assert (Hin : "tg_pagerank" ∈ catalog_names algo_dict0)
    by by_decision.
  split; [exact Hin|].
  destruct (@catalog_names_resolve Demo.server Demo.pyfloat
              Demo.requests_get_text "tg_pagerank" Hin) as (_ & _ & Hty & _).
  split; [reflexivity|]. apply Hty. reflexivity.
Defined.

(** C8 fails as stated: in a catalog where two categories hold [tg_dup],
    [_get_query] ends with the text of the location under [Community], the
    last one visited, and [_get_query_url] answers with the location under
    [Path], the first one; no location serves both. *)
Lemma duplicate_name_entries_differ :
  let s := with_algo_dict Demo.twice demo in
  calls (snd (demo_get_query "tg_dup" s))
  = [HttpGet "https://host/master/algorithms/Path/tg_dup.gsql";
     HttpGet "https://host/master/algorithms/Community/tg_dup.gsql"] ∧
  fst (demo_get_query "tg_dup" s)
  = Ok (Demo.requests_get_text "https://host/master/algorithms/Community/tg_dup.gsql") ∧
  fst (_get_query_url "tg_dup" s)
  = Ok (blob_root +:+ "/algorithms/Path/tg_dup.gsql") ∧
  ¬ (∃ u, last (calls (snd (demo_get_query "tg_dup" s))) = Some (HttpGet u) ∧
          fst (_get_query_url "tg_dup" s) = blob_url u).
Proof.
  split; [by_evaluation|].
  split; [by_evaluation|].
  split; [by_evaluation|].
  intros (u & Hq & Hu).
  assert (Hl : last (calls (snd (demo_get_query "tg_dup"
                                   (with_algo_dict Demo.twice demo))))
               = Some (HttpGet "https://host/master/algorithms/Community/tg_dup.gsql"))
    by by_evaluation.
  rewrite Hl in Hq. injection Hq as <-.
  vm_compute in Hu. discriminate.
Qed.

Lemma resolve_takes_last_reference_takes_first_witness :
  let s := with_algo_dict Demo.twice demo in
  demo_get_query "tg_dup" s
  = (Ok (Demo.requests_get_text "https://host/master/algorithms/Community/tg_dup.gsql"),
     called [HttpGet "https://host/master/algorithms/Path/tg_dup.gsql";
             HttpGet "https://host/master/algorithms/Community/tg_dup.gsql"] s) ∧
  _get_query_url "tg_dup" s
  = (blob_url "https://host/master/algorithms/Path/tg_dup.gsql", s).
Proof.
  apply (resolve_takes_last_reference_takes_first Demo.requests_get_text "tg_dup"
           (with_algo_dict Demo.twice demo)
           "https://host/master/algorithms/Path/tg_dup.gsql"
           ["https://host/master/algorithms/Community/tg_dup.gsql"]).
  - by_evaluation.
  - vm_compute. discriminate.
Defined.

(** C9 fails as stated: after a first [_get_Params("tg_bfs")] the mapping is
    in [params_dict], and the second call downloads the source once more. *)
Lemma second_inference_downloads_again :
  let s1 := snd (demo_get_Params "tg_bfs" demo) in
  let s2 := snd (demo_get_Params "tg_bfs" s1) in
  fst (demo_get_Params "tg_bfs" demo)
  = Ok (<["k" := VInt 5]> (<["v_type" := VNone]> ∅)) ∧
  params_dict s1 !! "tg_bfs" = Some (<["k" := VInt 5]> (<["v_type" := VNone]> ∅)) ∧
  calls s1 = [HttpGet bfs_url] ∧
  calls s2 = [HttpGet bfs_url; HttpGet bfs_url] ∧
  calls s2 ≠ calls s1.
Proof.
  split; [by_evaluation|].
  split; [by_evaluation|].
  split; [by_evaluation|].
  split; [by_evaluation|].
  vm_compute. discriminate.
Qed.

Lemma inferred_defaults_are_stored_not_reused_witness :
  let params : gmap string (pyvalue Demo.pyfloat) :=
    <["k" := VInt 5]> (<["v_type" := VNone]> ∅) in
  let s1 := snd (demo_get_Params "tg_bfs" demo) in
  demo_get_Params "tg_bfs" demo = (Ok params, s1) ∧
  params_dict s1 !! "tg_bfs" = Some params ∧
  ∃ u rest s2,
    matching "tg_bfs" (_get_values (algo_dict demo)) = u :: rest ∧
    demo_get_Params "tg_bfs" s1 = (Ok params, s2) ∧
    calls s2 = calls s1 ++ map HttpGet (u :: rest) ∧
    params_dict s2 = params_dict s1.
Proof.
  intros params s1.
  assert (H : demo_get_Params "tg_bfs" demo = (Ok params, s1))
    by by_evaluation.
  split; [exact H|].
  exact (inferred_defaults_are_stored_not_reused Demo.requests_get_text
           Demo.float_of_str "tg_bfs" demo s1 params H).
Defined.

(** Witnesses of the theorems on the resolver, the runner and the
    installer. *)
Lemma unknown_name_is_NotFound_witness :
  ("tg_unknown" ∉ catalog_names algo_dict0) ∧
  demo_get_query "tg_unknown" demo
  = (Raise (ValueError not_included),
     written (map Line (fst (listing algo_dict0 None))) demo) ∧
  _get_query_url "tg_unknown" demo
  = (Raise (ValueError not_included),
     written (map Line (fst (listing algo_dict0 None))) demo).
Proof.
  assert (H : "tg_unknown" ∉ catalog_names algo_dict0)
    by by_decision.
  split; [exact H|].
  destruct (unknown_name_is_NotFound Demo.requests_get_text "tg_unknown" demo
              eq_refl H) as (H1 & H2 & _).
  split; [exact H1|exact H2].
Defined.

Lemma missing_default_is_ValidationError_witness :
  let params : gmap string (pyvalue Demo.pyfloat) :=
    <["k" := VInt 5]> (<["v_type" := VNone]> ∅) in
  let s1 := snd (demo_get_Params "tg_bfs" demo) in
  demo_get_Params "tg_bfs" demo = (Ok params, s1) ∧
  params !! "v_type" = Some VNone ∧
  ∃ u b s2,
    u ∈ _get_values algo_dict0 ∧ leaf_name u = "tg_bfs" ∧ blob_url u = Ok b ∧
    demo_run "tg_bfs" None "VERTEX" None None 2147480 None demo
    = (Raise (ValueError
                ("Query parameters which are not initialized by default need to be initialized, visit "
                 +:+ b +:+ ".")), s2) ∧
    remote s2 = remote demo ∧
    calls s2 = calls demo ++ map HttpGet (matching "tg_bfs" (_get_values algo_dict0)) ∧
    List.filter is_run (calls s2) = List.filter is_run (calls demo).
Proof.
  intros params s1.
  assert (Hp : demo_get_Params "tg_bfs" demo = (Ok params, s1))
    by by_evaluation.
  assert (Hk : params !! "v_type" = Some VNone) by by_evaluation.
  split; [exact Hp|]. split; [exact Hk|].
  exact (missing_default_is_ValidationError Demo.graphname
           Demo.requests_get_text Demo.float_of_str Demo.str_of_list
           Demo.random_string Demo.gsql Demo.runInstalledQuery
           Demo.getSchema_EdgeTypes Demo.getVertexTypes Demo.getVertexType
           "tg_bfs" "VERTEX" None None 2147480 None demo s1 params "v_type"
           eq_refl Hp Hk).
Defined.

Lemma install_twice_one_round_trip_witness :
  let s1 := snd (demo_install "tg_bfs" None demo) in
  (endpoint Demo.graphname "tg_bfs" ∉ Demo.getInstalledQueries (remote demo)) ∧
  demo_install "tg_bfs" None demo = (Ok "tg_bfs", s1) ∧
  endpoint Demo.graphname "tg_bfs" ∈ Demo.getInstalledQueries (remote s1) ∧
  ∃ command,
    List.filter is_gsql (calls s1) = List.filter is_gsql (calls demo) ++ [Gsql command] ∧
    demo_install "tg_bfs" None s1 = (Ok "tg_bfs", called [GetInstalledQueries] s1) ∧
    List.filter is_gsql (calls (called [GetInstalledQueries] s1))
    = List.filter is_gsql (calls demo) ++ [Gsql command] ∧
    List.filter is_http (calls (called [GetInstalledQueries] s1))
    = List.filter is_http (calls s1).
Proof.
  intros s1.
  assert (H0 : endpoint Demo.graphname
                 (Py.strip (final_name "tg_bfs" None))
               ∉ Demo.getInstalledQueries (remote demo))
    by by_decision.
  assert (H1 : demo_install "tg_bfs" None demo = (Ok "tg_bfs", s1))
    by by_evaluation.
  assert (H2 : endpoint Demo.graphname (Py.strip "tg_bfs")
               ∈ Demo.getInstalledQueries (remote s1))
    by by_decision.
  split; [exact H0|]. split; [exact H1|]. split; [exact H2|].
  exact (install_twice_one_round_trip Demo.graphname Demo.requests_get_text
           Demo.getInstalledQueries Demo.gsql "tg_bfs" None demo s1 "tg_bfs"
           H0 H1 H2).
Defined.

(** ** The further properties on the small server *)

Local Abbreviation demo_installAlgorithm :=
  (installAlgorithm Demo.graphname Demo.requests_get_text
     Demo.getInstalledQueries Demo.gsql).

Lemma resolve_only_downloads_witness :
  is_Ok (fst (demo_get_query "tg_bfs" demo)) = true ∧
  stdout (snd (demo_get_query "tg_bfs" demo)) = stdout demo.
Proof.
  assert (H : is_Ok (fst (demo_get_query "tg_bfs" demo)) = true)
    by by_evaluation.
  split; [exact H|].
  destruct (resolve_only_downloads Demo.requests_get_text "tg_bfs" demo)
    as (_ & _ & _ & _ & _ & _ & _ & Hs).
  exact (Hs H).
Defined.

Lemma getEdgeType_of_listed_name_witness :
  "Knows" ∈ getEdgeTypes Demo.getSchema_EdgeTypes Demo.server0 ∧
  ∃ et, getEdgeType Demo.getSchema_EdgeTypes Demo.server0 (AStr "Knows")
        = Ok (Some et) ∧
        Name et = "Knows" ∧ et ∈ Demo.getSchema_EdgeTypes Demo.server0.
Proof.
  assert (H : "Knows" ∈ getEdgeTypes Demo.getSchema_EdgeTypes Demo.server0)
    by by_decision.
  split; [exact H|].
  exact (proj1 (getEdgeType_of_listed_name Demo.getSchema_EdgeTypes
                  Demo.server0 "Knows") H).
Defined.


Lemma install_of_unknown_name_submits_nothing_witness :
  (endpoint Demo.graphname "tg_unknown" ∉ Demo.getInstalledQueries (remote demo)) ∧
  ("tg_unknown" ∉ catalog_names algo_dict0) ∧
  demo_install "tg_unknown" None demo
  = (Raise (ValueError not_included),
     written (map Line (fst (listing algo_dict0 None)))
       (called [GetInstalledQueries] demo)).
Proof.
  assert (H0 : endpoint Demo.graphname (Py.strip (final_name "tg_unknown" None))
               ∉ Demo.getInstalledQueries (remote demo))
    by by_decision.
  assert (H1 : final_name "tg_unknown" None ∉ catalog_names algo_dict0)
    by by_decision.
  split; [exact H0|]. split; [exact H1|].
  exact (install_of_unknown_name_submits_nothing Demo.graphname
           Demo.requests_get_text Demo.getInstalledQueries Demo.gsql
           "tg_unknown" None demo eq_refl H0 H1).
Defined.


Lemma invalid_schema_type_raises_witness :
  Py.upper "graph" ≠ "VERTEX" ∧ Py.upper "graph" ≠ "EDGE" ∧
  demo_add_attribute "graph" "INT" (Some "score") None demo
  = (Raise (Exception "schema_type has to be VERTEX or EDGE"),
     with_result_attr (Some "score") demo).
Proof.
  assert (H0 : Py.upper "graph" ≠ "VERTEX") by (vm_compute; discriminate).
  assert (H1 : Py.upper "graph" ≠ "EDGE") by (vm_compute; discriminate).
  split; [exact H0|]. split; [exact H1|].
  exact (invalid_schema_type_raises Demo.graphname Demo.str_of_list
           Demo.random_string Demo.gsql Demo.getSchema_EdgeTypes
           Demo.getVertexTypes Demo.getVertexType "graph" "INT" (Some "score")
           None demo H0 H1).
Defined.


Lemma no_declared_parameters_give_the_empty_mapping_witness :
  matching "tg_kcore" (_get_values (algo_dict demo)) = [kcore_url] ∧
  Demo.requests_get_text kcore_url ≠ "" ∧
  input_params (Demo.requests_get_text kcore_url) = "" ∧
  demo_get_Params "tg_kcore" demo
  = (Ok ∅,
     with_params_dict (<["tg_kcore" := ∅]> (params_dict demo))
       (written [Line "The algorithm does not have any input parameter."]
          (called [HttpGet kcore_url] demo))).
Proof.
  assert (H0 : matching "tg_kcore" (_get_values (algo_dict demo)) = [kcore_url])
    by by_evaluation.
  assert (H1 : Demo.requests_get_text (List.last [] kcore_url) ≠ "")
    by (vm_compute; discriminate).
  assert (H2 : input_params (Demo.requests_get_text (List.last [] kcore_url)) = "")
    by by_evaluation.
  split; [exact H0|]. split; [exact H1|]. split; [exact H2|].
  exact (no_declared_parameters_give_the_empty_mapping Demo.requests_get_text
           Demo.float_of_str "tg_kcore" demo kcore_url [] H0 H1 H2).
Defined.

Lemma parsing_stops_at_the_first_failure_witness :
  let d1 : gmap string (pyvalue Demo.pyfloat) := <["k" := VInt 5]> ∅ in
  _get_Params_loop Demo.float_of_str ["INT k = 5"] ∅ = (d1, true) ∧
  _get_Params_step Demo.float_of_str " INT n = many" d1 = (d1, false) ∧
  _get_Params_loop Demo.float_of_str
    (["INT k = 5"] ++ " INT n = many" :: [" INT m = 7"]) ∅
  = (d1, false).
Proof.
  intros d1.
  assert (H0 : _get_Params_loop Demo.float_of_str ["INT k = 5"] ∅ = (d1, true))
    by by_evaluation.
  assert (H1 : _get_Params_step Demo.float_of_str " INT n = many" d1 = (d1, false))
    by by_evaluation.
  split; [exact H0|]. split; [exact H1|].
  exact (parsing_stops_at_the_first_failure Demo.float_of_str ["INT k = 5"]
           " INT n = many" [" INT m = 7"] ∅ d1 d1 H0 H1).
Defined.

Lemma empty_defaults_run_without_payload_witness :
  let s1 := snd (demo_get_Params "tg_kcore" demo) in
  demo_get_Params "tg_kcore" demo = (Ok ∅, s1) ∧
  demo_run "tg_kcore" None "VERTEX" None None 2147480 None demo
  = (Ok (fst (Demo.runInstalledQuery (remote s1) "tg_kcore" None 2147480 None)),
     with_remote
       (snd (Demo.runInstalledQuery (remote s1) "tg_kcore" None 2147480 None))
       (called [RunInstalledQuery "tg_kcore" None 2147480 None]
          (written [DefaultParams ∅] s1))).
Proof.
  intros s1.
  assert (H : demo_get_Params "tg_kcore" demo = (Ok ∅, s1)) by by_evaluation.
  split; [exact H|].
  exact (empty_defaults_run_without_payload Demo.graphname
           Demo.requests_get_text Demo.float_of_str Demo.str_of_list
           Demo.random_string Demo.gsql Demo.runInstalledQuery
           Demo.getSchema_EdgeTypes Demo.getVertexTypes Demo.getVertexType
           "tg_kcore" "VERTEX" None None 2147480 None demo s1 H).
Defined.

Lemma explicit_parameters_are_passed_as_given_witness :
  let params : gmap string (pyvalue Demo.pyfloat) := <["k" := VInt 7]> ∅ in
  let defaults : gmap string (pyvalue Demo.pyfloat) :=
    <["label" := VStr ""]> (<["k" := VInt 5]> ∅) in
  let s1 := snd (demo_get_Params "tg_pagerank" demo) in
  demo_get_Params "tg_pagerank" demo = (Ok defaults, s1) ∧
  demo_run "tg_pagerank" (Some params) "VERTEX" (Some "") None 2147480 None demo
  = (Ok (fst (Demo.runInstalledQuery (remote s1) "tg_pagerank" (Some params)
                2147480 None)),
     with_remote
       (snd (Demo.runInstalledQuery (remote s1) "tg_pagerank" (Some params)
               2147480 None))
       (called [RunInstalledQuery "tg_pagerank" (Some params) 2147480 None] s1)).
Proof.
  intros params defaults s1.
  assert (H : demo_get_Params "tg_pagerank" demo = (Ok defaults, s1))
    by by_evaluation.
  split; [exact H|].
  exact (explicit_parameters_are_passed_as_given Demo.graphname
           Demo.requests_get_text Demo.float_of_str Demo.str_of_list
           Demo.random_string Demo.gsql Demo.runInstalledQuery
           Demo.getSchema_EdgeTypes Demo.getVertexTypes Demo.getVertexType
           "tg_pagerank" "VERTEX" params defaults (Some "") None 2147480 None
           demo s1 H eq_refl).
Defined.

Lemma unknown_routine_is_never_run_witness :
  ("tg_unknown" ∉ catalog_names algo_dict0) ∧
  demo_run "tg_unknown" None "VERTEX" None None 2147480 None demo
  = (Raise (ValueError not_included),
     written (map Line (fst (listing algo_dict0 None))) demo).
Proof.
  assert (H : "tg_unknown" ∉ catalog_names algo_dict0) by by_decision.
  split; [exact H|].
  exact (unknown_routine_is_never_run Demo.graphname Demo.requests_get_text
           Demo.float_of_str Demo.str_of_list Demo.random_string Demo.gsql
           Demo.runInstalledQuery Demo.getSchema_EdgeTypes Demo.getVertexTypes
           Demo.getVertexType "tg_unknown" "VERTEX" None None None 2147480 None
           demo eq_refl H).
Defined.

Lemma feature_of_routine_without_result_attr_witness :
  let defaults : gmap string (pyvalue Demo.pyfloat) :=
    <["label" := VStr ""]> (<["k" := VInt 5]> ∅) in
  let s1 := snd (demo_get_Params "tg_pagerank" demo) in
  demo_get_Params "tg_pagerank" demo = (Ok defaults, s1) ∧
  defaults !! "result_attr" = None ∧
  ∃ u b,
    u ∈ _get_values algo_dict0 ∧ leaf_name u = "tg_pagerank" ∧ blob_url u = Ok b ∧
    demo_run "tg_pagerank" (Some ∅) "VERTEX" (Some "rank") None 2147480 None demo
    = (Raise (ValueError
                ("The algorithm does not provide any feature, see the algorithm details:"
                 +:+ b +:+ ".")), s1).
Proof.
  intros defaults s1.
  assert (H0 : demo_get_Params "tg_pagerank" demo = (Ok defaults, s1))
    by by_evaluation.
  assert (H1 : "rank" ≠ "") by discriminate.
  assert (H2 : defaults !! "result_attr" = None) by by_evaluation.
  split; [exact H0|]. split; [exact H2|].
  exact (feature_of_routine_without_result_attr Demo.graphname
           Demo.requests_get_text Demo.float_of_str Demo.str_of_list
           Demo.random_string Demo.gsql Demo.runInstalledQuery
           Demo.getSchema_EdgeTypes Demo.getVertexTypes Demo.getVertexType
           "tg_pagerank" "VERTEX" "rank" ∅ defaults None 2147480 None demo s1
           eq_refl H0 H1 H2).
Defined.

Lemma feature_of_untyped_routine_is_KeyError_witness :
  let source (url : string) : string :=
    "CREATE QUERY q(STRING result_attr = " +:+ dq +:+ dq +:+ ") {}" in
  let defaults : gmap string (pyvalue Demo.pyfloat) :=
    <["result_attr" := VStr ""]> ∅ in
  let s1 := snd (_get_Params source Demo.float_of_str "tg_common_neighbors" demo) in
  _get_Params source Demo.float_of_str "tg_common_neighbors" demo
  = (Ok defaults, s1) ∧
  defaults !! "result_attr" = Some (VStr "") ∧
  queryResult_type_dict demo !! "tg_common_neighbors" = None ∧
  runAlgorithm Demo.graphname source Demo.float_of_str Demo.str_of_list
    Demo.random_string Demo.gsql Demo.runInstalledQuery
    Demo.getSchema_EdgeTypes Demo.getVertexTypes Demo.getVertexType
    "tg_common_neighbors" (Some ∅) "VERTEX" (Some "rank") None 2147480 None demo
  = (Raise (KeyError "tg_common_neighbors"), s1).
Proof.
  intros source defaults s1.
  assert (H0 : _get_Params source Demo.float_of_str "tg_common_neighbors" demo
               = (Ok defaults, s1))
    by by_evaluation.
  assert (H1 : "rank" ≠ "") by discriminate.
  assert (H2 : defaults !! "result_attr" = Some (VStr "")) by by_evaluation.
  assert (H3 : queryResult_type_dict demo !! "tg_common_neighbors" = None)
    by by_evaluation.
  split; [exact H0|]. split; [exact H2|]. split; [exact H3|].
  exact (feature_of_untyped_routine_is_KeyError Demo.graphname source
           Demo.float_of_str Demo.str_of_list Demo.random_string Demo.gsql
           Demo.runInstalledQuery Demo.getSchema_EdgeTypes Demo.getVertexTypes
           Demo.getVertexType "tg_common_neighbors" "VERTEX" "rank" ∅ defaults
           (VStr "") None 2147480 None demo s1 H0 H1 H2 H3).
Defined.

Lemma feature_is_ensured_then_passed_witness :
  let params : gmap string (pyvalue Demo.pyfloat) :=
    <["result_attr" := VStr "other"]> (<["top_k" := VInt 10]> ∅) in
  let defaults : gmap string (pyvalue Demo.pyfloat) :=
    <["result_attr" := VStr ""]> (<["top_k" := VInt 100]> ∅) in
  let s1 := snd (demo_get_Params "tg_lcc" demo) in
  let s2 := snd (demo_add_attribute "VERTEX" "Float" (Some "rank") None s1) in
  let payload := Some (<["result_attr" := VStr "rank"]> params) in
  demo_get_Params "tg_lcc" demo = (Ok defaults, s1) ∧
  defaults !! "result_attr" = Some (VStr "") ∧
  queryResult_type_dict demo !! "tg_lcc" = Some "Float" ∧
  demo_add_attribute "VERTEX" "Float" (Some "rank") None s1
  = (Ok "Global schema change succeeded.", s2) ∧
  demo_run "tg_lcc" (Some params) "VERTEX" (Some "rank") None 2147480 None demo
  = (Ok (fst (Demo.runInstalledQuery (remote s2) "tg_lcc" payload 2147480 None)),
     with_remote
       (snd (Demo.runInstalledQuery (remote s2) "tg_lcc" payload 2147480 None))
       (called [RunInstalledQuery "tg_lcc" payload 2147480 None] s2)).
Proof.
  intros params defaults s1 s2 payload.
  assert (H0 : demo_get_Params "tg_lcc" demo = (Ok defaults, s1))
    by by_evaluation.
  assert (H1 : "rank" ≠ "") by discriminate.
  assert (H2 : defaults !! "result_attr" = Some (VStr "")) by by_evaluation.
  assert (H3 : queryResult_type_dict demo !! "tg_lcc" = Some "Float")
    by by_evaluation.
  assert (H4 : demo_add_attribute "VERTEX" "Float" (Some "rank") None s1
               = (Ok "Global schema change succeeded.", s2))
    by by_evaluation.
  split; [exact H0|]. split; [exact H2|]. split; [exact H3|]. split; [exact H4|].
  exact (feature_is_ensured_then_passed Demo.graphname Demo.requests_get_text
           Demo.float_of_str Demo.str_of_list Demo.random_string Demo.gsql
           Demo.runInstalledQuery Demo.getSchema_EdgeTypes Demo.getVertexTypes
           Demo.getVertexType "tg_lcc" "VERTEX" "rank" "Float"
           "Global schema change succeeded." params defaults (VStr "") None
           2147480 None demo s1 s2 H0 H1 H2 H3 H4).
Defined.

Lemma listing_of_any_catalog_witness :
  forallb printable (_get_values (algo_dict demo)) = true ∧
  listAlgorithms None demo
  = (Ok tt, written (map Line (fst (listing (algo_dict demo) None))) demo) ∧
  length (fst (listing (algo_dict demo) None))
  = (1 + count_keys (algo_dict demo) + length (_get_values (algo_dict demo)))%nat.
Proof.
  assert (H : forallb printable (_get_values (algo_dict demo)) = true)
    by by_evaluation.
  split; [exact H|].
  destruct (proj1 (listing_of_any_catalog Demo.requests_get_text demo) H)
    as (H1 & _ & H2 & _).
  split; [exact H1|exact H2].
Defined.

Lemma categories_are_the_top_level_keys_witness :
  ("Path" ∈ ["Centrality"; "Classification"; "Community"; "Embeddings";
             "Path"; "Topological Link Prediction"]) ∧
  fst (listAlgorithms (Some "Path") demo) = Ok tt ∧
  ("Similarity" ∉ ["Centrality"; "Classification"; "Community"; "Embeddings";
                   "Path"; "Topological Link Prediction"]) ∧
  listAlgorithms (Some "Similarity") demo
  = (Raise (ValueError "There is no such category within the algorithms."),
     written [Line (listing_header (Some "Similarity"))] demo).
Proof.
  assert (H0 : "Path" ∈ ["Centrality"; "Classification"; "Community";
                         "Embeddings"; "Path"; "Topological Link Prediction"])
    by by_decision.
  assert (H1 : "Similarity" ∉ ["Centrality"; "Classification"; "Community";
                               "Embeddings"; "Path"; "Topological Link Prediction"])
    by by_decision.
  split; [exact H0|].
  split; [exact (proj1 (categories_are_the_top_level_keys "Path" demo eq_refl) H0)|].
  split; [exact H1|].
  exact (proj2 (categories_are_the_top_level_keys "Similarity" demo eq_refl) H1).
Defined.


Lemma parse_params_of_header_witness :
  free_of "(" "CREATE QUERY tg_bfs" = true ∧
  free_of ")" "CREATE QUERY tg_bfs" = true ∧
  Forall (fun x => free_of "," x = true ∧ free_of ")" x = true)
    ["STRING v_type"; " INT k = 5"] ∧
  parse_params Demo.float_of_str "CREATE QUERY tg_bfs(STRING v_type, INT k = 5) {}"
  = _get_Params_loop Demo.float_of_str ["STRING v_type"; " INT k = 5"] ∅.
Proof.
  assert (H0 : free_of "(" "CREATE QUERY tg_bfs" = true) by reflexivity.
  assert (H1 : free_of ")" "CREATE QUERY tg_bfs" = true) by reflexivity.
  assert (H2 : Forall (fun x => free_of "," x = true ∧ free_of ")" x = true)
                 ["STRING v_type"; " INT k = 5"])
    by (repeat (constructor; [split; reflexivity|]); constructor).
  split; [exact H0|]. split; [exact H1|]. split; [exact H2|].
  exact (parse_params_of_header Demo.float_of_str "CREATE QUERY tg_bfs" " {}"
           "STRING v_type" [" INT k = 5"] H0 H1 H2).
Defined.

(** ** Properties of the edge functions *)

Module EdgeFacts.
Import Edge.

Ltac tidy_strings :=
  cbn [app fst snd map fold_right Py.join andb];
  rewrite ?string_app_assoc, ?string_app_nil_r; reflexivity.

(** The URL [getEdges] requests, for a given source vertex: the path to the
    edges of the vertex, followed by the query string of the parameters that
    were given, in the order [select], [filter], [limit], [sort],
    [timeout]; the first one is introduced by a question mark, each later
    one by an ampersand, whichever of them are absent. *)
Theorem getEdges_url_query (restppUrl graphname sourceVertexType : string)
    (sourceVertexId : pyid) (edgeType targetVertexType : string)
    (targetVertexId : pyid) (select where_ : string) (limit : option pyid)
    (sort : string) (timeout : Z) :
  sourceVertexType ≠ "" ->
  truthy_id sourceVertexId = true ->
  getEdges_url restppUrl graphname sourceVertexType sourceVertexId edgeType
    targetVertexType targetVertexId select where_ limit sort timeout
  = Returns
      (edges_of_vertex restppUrl graphname sourceVertexType sourceVertexId
         edgeType targetVertexType targetVertexId
       +:+ query_string
             (given (truthy select) ("select=" +:+ select)
              ++ given (truthy where_) ("filter=" +:+ where_)
              ++ given (truthy_limit limit) ("limit=" +:+ str_limit limit)
              ++ given (truthy sort) ("sort=" +:+ sort)
              ++ given (0 <? timeout) ("timeout=" +:+ pretty timeout))).
Proof.
  intros Ht Hi. unfold getEdges_url, truthy at 1. rewrite Hi.
  destruct (String.eqb_spec sourceVertexType "") as [|_]; [done|].
  cbn [negb orb]. f_equal.
  generalize (edges_of_vertex restppUrl graphname sourceVertexType
                sourceVertexId edgeType targetVertexType targetVertexId).
  intros url. unfold add_param, given, query_string.
  destruct (truthy select), (truthy where_), (truthy_limit limit),
    (truthy sort), (0 <? timeout); tidy_strings.
Qed.

(** The URL [delEdges] requests, for a given source vertex: the same path,
    followed by the query string of [filter], of [limit] and [sort] when
    both were given (neither appears when one of them is missing), and of
    [timeout]. *)
Theorem delEdges_url_query (restppUrl graphname sourceVertexType : string)
    (sourceVertexId : pyid) (edgeType targetVertexType : string)
    (targetVertexId : pyid) (where_ : string) (limit : pyid) (sort : string)
    (timeout : Z) :
  sourceVertexType ≠ "" ->
  truthy_id sourceVertexId = true ->
  delEdges_url restppUrl graphname sourceVertexType sourceVertexId edgeType
    targetVertexType targetVertexId where_ limit sort timeout
  = Returns
      (edges_of_vertex restppUrl graphname sourceVertexType sourceVertexId
         edgeType targetVertexType targetVertexId
       +:+ query_string
             (given (truthy where_) ("filter=" +:+ where_)
              ++ (if truthy_id limit && truthy sort
                  then ["limit=" +:+ str limit; "sort=" +:+ sort] else [])
              ++ given (0 <? timeout) ("timeout=" +:+ pretty timeout))).
Proof.
  intros Ht Hi. unfold delEdges_url, truthy at 1. rewrite Hi.
  destruct (String.eqb_spec sourceVertexType "") as [|_]; [done|].
  cbn [negb orb]. f_equal.
  generalize (edges_of_vertex restppUrl graphname sourceVertexType
                sourceVertexId edgeType targetVertexType targetVertexId).
  intros url. unfold add_param, given, query_string.
  destruct (truthy where_), (truthy_id limit && truthy sort), (0 <? timeout);
    tidy_strings.
Qed.

(** [delEdges] addresses the edges [getEdges] shows: for a given source
    vertex, without [select], and with [limit] and [sort] both given or
    both left out, the two functions request the same URL. *)
Theorem delEdges_and_getEdges_request_the_same_url
    (restppUrl graphname sourceVertexType : string)
    (sourceVertexId : pyid) (edgeType targetVertexType : string)
    (targetVertexId : pyid) (where_ : string) (limit : pyid) (sort : string)
    (timeout : Z) :
  sourceVertexType ≠ "" ->
  truthy_id sourceVertexId = true ->
  truthy_id limit = truthy sort ->
  getEdges_url restppUrl graphname sourceVertexType sourceVertexId edgeType
    targetVertexType targetVertexId "" where_ (Some limit) sort timeout
  = delEdges_url restppUrl graphname sourceVertexType sourceVertexId edgeType
      targetVertexType targetVertexId where_ limit sort timeout.
Proof.
  intros Ht Hi Hl. unfold getEdges_url, delEdges_url, truthy at 1 5.
  rewrite Hi. destruct (String.eqb_spec sourceVertexType "") as [|_]; [done|].
  cbn [negb orb]. f_equal.
  generalize (edges_of_vertex restppUrl graphname sourceVertexType
                sourceVertexId edgeType targetVertexType targetVertexId).
  intros url. unfold add_param, truthy_limit, str_limit. rewrite Hl.
  change (truthy "") with false. cbn iota.
  destruct (truthy where_), (truthy sort), (0 <? timeout); tidy_strings.
Qed.

(** *** Upserts *)

Lemma od_get_set {K V} `{EqDecision K} (d : list (K * V)) (k k' : K) (v : V) :
  od_get (od_set d k v) k' = if decide (k = k') then Some v else od_get d k'.
Proof.
  induction d as [|[k0 v0] r IH]; simpl.
  - by destruct (decide (k = k')).
  - destruct (decide (k0 = k)) as [->|Hne]; simpl.
    + by destruct (decide (k = k')).
    + destruct (decide (k0 = k')) as [->|Hne'].
      * by destruct (decide (k = k')) as [->|].
      * exact IH.
Qed.

Lemma od_get_change {K V} `{EqDecision K} (d : list (K * list V)) (k k' : K)
    (f : list V -> list V) :
  od_get (od_change d k f) k'
  = if decide (k = k') then Some (f (default [] (od_get d k))) else od_get d k'.
Proof. apply od_get_set. Qed.

(** The value under a source and a target inside the dictionary of one
    source vertex type. *)
Lemma place_get {V} (edgeType targetVertexType : string) (data : l1 V)
    (s t s' t' : pyid) (vals : V) :
  source_get (place edgeType targetVertexType data s t vals) s' edgeType
    targetVertexType t'
  = if decide ((s, t) = (s', t')) then Some vals
    else source_get data s' edgeType targetVertexType t'.
Proof.
  unfold source_get, place, l1, l2, l3, l4 in *. rewrite od_get_change.
  destruct (decide (s = s')) as [<-|Hs].
  - cbn [mbind option_bind]. rewrite od_get_change.
    destruct (decide (edgeType = edgeType)); [|done].
    cbn [mbind option_bind]. rewrite od_get_change.
    destruct (decide (targetVertexType = targetVertexType)); [|done].
    cbn [mbind option_bind]. rewrite od_get_set.
    destruct (decide (t = t')) as [<-|Ht].
    + by destruct (decide ((s, t) = (s, t))).
    + destruct (decide ((s, t) = (s, t'))) as [[=]|_]; [done|].
      destruct (od_get data s) as [d2|]; [|done]. cbn.
      destruct (od_get d2 edgeType) as [d3|]; [|done]. cbn.
      by destruct (od_get d3 targetVertexType) as [d4|].
  - by destruct (decide ((s, t) = (s', t'))) as [[=]|_].
Qed.

Lemma upsertEdges_loop_get {A V} (_upsertAttrs : A -> V) (empty : V)
    (edgeType targetVertexType : string) (edges : list (edge A))
    (data data' : l1 V) (s t : pyid) :
  upsertEdges_loop _upsertAttrs empty edgeType targetVertexType edges data
  = Returns data' ->
  source_get data' s edgeType targetVertexType t
  = match last (filter (fun e => edge_key e = Some (s, t)) edges) with
    | Some e => Some (edge_vals _upsertAttrs empty e)
    | None => source_get data s edgeType targetVertexType t
    end.
Proof.
  revert data. induction edges as [|e rest IH]; intros data H.
  - by injection H as ->.
  - assert (Hstep : ∀ s0 t0 vals,
      edge_key e = Some (s0, t0) ->
      edge_vals _upsertAttrs empty e = vals ->
      upsertEdges_loop _upsertAttrs empty edgeType targetVertexType rest
        (place edgeType targetVertexType data s0 t0 vals) = Returns data' ->
      source_get data' s edgeType targetVertexType t
      = match last (filter (fun e => edge_key e = Some (s, t)) (e :: rest)) with
        | Some e => Some (edge_vals _upsertAttrs empty e)
        | None => source_get data s edgeType targetVertexType t
        end).
    { intros s0 t0 vals Hk Hv Hl. rewrite (IH _ Hl), place_get.
      rewrite filter_cons, Hk.
      destruct (decide (Some (s0, t0) = Some (s, t))) as [[= -> ->]|Hne].
      - rewrite last_cons.
        destruct (last (filter _ rest)); [done|].
        destruct (decide ((s, t) = (s, t))); [by rewrite Hv|done].
      - destruct (last (filter _ rest)); [done|].
        destruct (decide ((s0, t0) = (s, t))) as [[= -> ->]|_]; done. }
    destruct e as [|s0 t0|s0 t0 a]; [done| |].
    + by apply (Hstep s0 t0 empty).
    + by apply (Hstep s0 t0 (_upsertAttrs a)).
Qed.

(** In the dictionary [upsertEdges] sends, the values under a source ID and
    a target ID are those of the last tuple of [edges] with these two IDs,
    and a pair of IDs that no tuple has is absent: of several tuples for the
    same edge only the last one reaches the server. *)
Theorem upsertEdges_last_tuple_wins {A V} (_upsertAttrs : A -> V) (empty : V)
    (sourceVertexType edgeType targetVertexType : string)
    (edges : list (edge A)) (data : payload V) (s t : pyid) :
  upsertEdges_data _upsertAttrs empty sourceVertexType edgeType
    targetVertexType edges = Returns data ->
  payload_get data sourceVertexType s edgeType targetVertexType t
  = edge_vals _upsertAttrs empty
    <$> last (filter (fun e => edge_key e = Some (s, t)) edges).
Proof.
  unfold upsertEdges_data.
  destruct (upsertEdges_loop _ _ _ _ edges []) as [d|e] eqn:Hl; [|done].
  intros [= <-]. unfold payload_get. cbn [od_get].
  destruct (decide (sourceVertexType = sourceVertexType)); [|done].
  cbn [mbind option_bind]. rewrite (upsertEdges_loop_get _ _ _ _ _ _ _ s t Hl).
  by destruct (last (filter _ edges)).
Qed.

(** A tuple of fewer than two items makes [upsertEdges] raise [IndexError]
    without a request; without such a tuple the dictionary is built. *)
Theorem upsertEdges_needs_both_ids {A V} (_upsertAttrs : A -> V) (empty : V)
    (json_dumps : payload V -> string)
    (_post : string -> string -> outcome (list accepted_row))
    (restppUrl graphname sourceVertexType edgeType targetVertexType : string)
    (edges : list (edge A)) :
  (Short ∈ edges ->
   upsertEdges _upsertAttrs empty json_dumps _post restppUrl graphname
     sourceVertexType edgeType targetVertexType edges = Raises IndexError) ∧
  (Short ∉ edges ->
   ∃ data,
     upsertEdges_data _upsertAttrs empty sourceVertexType edgeType
       targetVertexType edges = Returns data).
Proof.
  unfold upsertEdges, upsertEdges_data. generalize (@nil (pyid * l2 V)).
  induction edges as [|e rest IH]; intros data.
  - split; [by intros H%elem_of_nil|]. intros _. by eexists.
  - destruct e as [|s0 t0|s0 t0 a]; simpl.
    + split; [done|]. intros H. exfalso. apply H. left.
    + destruct (IH (place edgeType targetVertexType data s0 t0 empty))
        as [IH1 IH2].
      split.
      * intros [[=]|H]%elem_of_cons. by apply IH1.
      * intros H. apply IH2. intros Hin. apply H. by right.
    + destruct (IH (place edgeType targetVertexType data s0 t0 (_upsertAttrs a)))
        as [IH1 IH2].
      split.
      * intros [[=]|H]%elem_of_cons. by apply IH1.
      * intros H. apply IH2. intros Hin. apply H. by right.
Qed.

(** [upsertEdge] with attributes is [upsertEdges] on the one tuple of its
    IDs and attributes: the same dictionary goes to the same URL. *)
Theorem upsertEdge_is_upsertEdges_of_one {A V} (_upsertAttrs : A -> V)
    (empty : V) (empty_attributes : A) (json_dumps : payload V -> string)
    (_post : string -> string -> outcome (list accepted_row))
    (restppUrl graphname sourceVertexType : string) (sourceVertexId : pyid)
    (edgeType targetVertexType : string) (targetVertexId : pyid)
    (attributes : A) :
  upsertEdge _upsertAttrs empty_attributes json_dumps _post restppUrl graphname
    sourceVertexType sourceVertexId edgeType targetVertexType targetVertexId
    (Some attributes)
  = upsertEdges _upsertAttrs empty json_dumps _post restppUrl graphname
      sourceVertexType edgeType targetVertexType
      [Edge3 sourceVertexId targetVertexId attributes].
Proof. reflexivity. Qed.

(** [getEdgeCount] never lists the edges of a vertex: for any edge type
    that is not the empty string it sends the one [POST] to [/builtins]
    with the [stat_edge_number] body and shapes the rows of the answer; for
    the empty string it raises without a request. *)
Theorem getEdgeCount_posts_to_builtins (_safeChar : pyid -> string)
    (_get : string -> outcome (list count_row))
    (_post : string -> string -> outcome (list count_row))
    (restppUrl graphname edgeType sourceVertexType targetVertexType : string) :
  getEdgeCount _safeChar _get _post restppUrl graphname edgeType
    sourceVertexType targetVertexType
  = if String.eqb edgeType ""
    then Raises (TigerGraphException
                   ("A valid edge type or " +:+ dq +:+ "*" +:+ dq
                    +:+ " must be specified for edge type.") None)
    else match _post (restppUrl +:+ "/builtins/" +:+ graphname)
                 (stat_edge_number edgeType sourceVertexType targetVertexType) with
         | Returns res => Returns (counts_of edgeType res)
         | Raises e => Raises e
         end.
Proof.
  unfold getEdgeCount, getEdgeCountFrom.
  change (truthy "") with false. cbn [truthy_opt orb andb].
  rewrite andb_false_r. unfold truthy at 1.
  by destruct (String.eqb edgeType "").
Qed.

(** *** The theorems on a small graph *)

Lemma getEdges_url_query_witness :
  "Person" ≠ "" ∧ truthy_id (IdStr "alice") = true ∧
  getEdges_url "http://host:9000" "social" "Person" (IdStr "alice") "Knows" ""
    (IdStr "") "" "since>2000" (Some (IdInt 10)) "since" 0
  = Returns
      "http://host:9000/graph/social/edges/Person/alice/Knows?filter=since>2000&limit=10&sort=since".
Proof.
  assert (H0 : "Person" ≠ "") by discriminate.
  assert (H1 : truthy_id (IdStr "alice") = true) by reflexivity.
  split; [exact H0|]. split; [exact H1|].
  exact (eq_trans
           (getEdges_url_query "http://host:9000" "social" "Person"
              (IdStr "alice") "Knows" "" (IdStr "") "" "since>2000"
              (Some (IdInt 10)) "since" 0 H0 H1)
           ltac:(by_evaluation)).
Defined.

Lemma delEdges_url_query_witness :
  "Person" ≠ "" ∧ truthy_id (IdStr "alice") = true ∧
  delEdges_url "http://host:9000" "social" "Person" (IdStr "alice") "Knows" ""
    (IdStr "") "since>2000" (IdInt 10) "" 30
  = Returns
      "http://host:9000/graph/social/edges/Person/alice/Knows?filter=since>2000&timeout=30".
Proof.
  assert (H0 : "Person" ≠ "") by discriminate.
  assert (H1 : truthy_id (IdStr "alice") = true) by reflexivity.
  split; [exact H0|]. split; [exact H1|].
  exact (eq_trans
           (delEdges_url_query "http://host:9000" "social" "Person"
              (IdStr "alice") "Knows" "" (IdStr "") "since>2000" (IdInt 10) ""
              30 H0 H1)
           ltac:(by_evaluation)).
Defined.

Lemma delEdges_and_getEdges_request_the_same_url_witness :
  "Person" ≠ "" ∧ truthy_id (IdInt 7) = true ∧
  truthy_id (IdStr "10") = truthy "since" ∧
  getEdges_url "http://host:9000" "social" "Person" (IdInt 7) "Knows" "City"
    (IdStr "Paris") "" "" (Some (IdStr "10")) "since" 0
  = delEdges_url "http://host:9000" "social" "Person" (IdInt 7) "Knows" "City"
      (IdStr "Paris") "" (IdStr "10") "since" 0.
Proof.
  assert (H0 : "Person" ≠ "") by discriminate.
  assert (H1 : truthy_id (IdInt 7) = true) by reflexivity.
  assert (H2 : truthy_id (IdStr "10") = truthy "since") by reflexivity.
  split; [exact H0|]. split; [exact H1|]. split; [exact H2|].
  exact (delEdges_and_getEdges_request_the_same_url "http://host:9000" "social"
           "Person" (IdInt 7) "Knows" "City" (IdStr "Paris") "" (IdStr "10")
           "since" 0 H0 H1 H2).
Defined.

Lemma upsertEdges_last_tuple_wins_witness :
  let edges : list (edge Z) :=
    [Edge3 (IdInt 17) (IdStr "home_page") 35; Edge2 (IdInt 42) (IdStr "search");
     Edge3 (IdInt 17) (IdStr "home_page") 93] in
  let data : payload Z :=
    [("Person",
      [(IdInt 17, [("Visits", [("Page", [(IdStr "home_page", 93)])])]);
       (IdInt 42, [("Visits", [("Page", [(IdStr "search", 0)])])])])] in
  upsertEdges_data id 0 "Person" "Visits" "Page" edges = Returns data ∧
  payload_get data "Person" (IdInt 17) "Visits" "Page" (IdStr "home_page")
  = Some 93.
Proof.
  intros edges data.
  assert (H : upsertEdges_data id 0 "Person" "Visits" "Page" edges = Returns data)
    by by_evaluation.
  split; [exact H|].
  exact (eq_trans
           (upsertEdges_last_tuple_wins id 0 "Person" "Visits" "Page" edges data
              (IdInt 17) (IdStr "home_page") H)
           ltac:(by_evaluation)).
Defined.

Lemma upsertEdges_needs_both_ids_witness :
  let edges : list (edge Z) := [Edge2 (IdInt 42) (IdStr "search"); Short] in
  Short ∈ edges ∧
  upsertEdges id 0 (fun _ : payload Z => "") (fun _ _ => Returns [])
    "http://host:9000" "social" "Person" "Visits" "Page" edges
  = Raises IndexError.
Proof.
  intros edges.
  assert (H : Short ∈ edges) by (right; left).
  split; [exact H|].
  exact (proj1 (upsertEdges_needs_both_ids id 0 (fun _ : payload Z => "")
                  (fun _ _ => Returns []) "http://host:9000" "social" "Person"
                  "Visits" "Page" edges) H).
Defined.

End EdgeFacts.
